(** * history-visualized: the query layer, the table extractors and the
    information loader, embedded from [query.py], [nations/info.py] and
    [presidents/executive_orders.py].

    Python strings are modelled as Rocq strings of 8-bit characters, that is
    the code points below 256 (ASCII and Latin-1); [str.lower], [str.strip]
    and the regular-expression classes are written out for that range. *)

From stdpp Require Import gmap strings.
From Stdlib Require Import String Ascii List Bool Arith ZArith Lia Permutation.
Import ListNotations.
Open Scope list_scope.

(** ** Exceptions and results *)

(** The exception classes the embedded code raises. *)
Inductive exn : Type :=
| TypeError
| ValueError
| IndexError
| PermissionError
| NotADirectoryError
| FileNotFoundError
| IsADirectoryError
| UnpicklingError
| ZeroDivisionError
| OverflowError
| AttributeError
| DisambiguationError
| PageError.

(** A call either returns a value or raises. *)
Inductive res (A : Type) : Type :=
| Ok (a : A)
| Raise (e : exn).
Arguments Ok {A} a.
Arguments Raise {A} e.

Definition res_bind {A B : Type} (r : res A) (k : A -> res B) : res B :=
  match r with
  | Ok a => k a
  | Raise e => Raise e
  end.

(** ** Python string primitives *)

Module PyStr.

Definition code (c : ascii) : nat := nat_of_ascii c.

(** [str.isupper] restricted to the letters [str.lower] changes below 256:
    A-Z and the Latin-1 capitals (all of 192..222 but the multiplication
    sign 215). *)
Definition is_upper (c : ascii) : bool :=
  ((65 <=? code c) && (code c <=? 90))
  || ((192 <=? code c) && (code c <=? 222) && negb (code c =? 215)).

Definition lower_char (c : ascii) : ascii :=
  if is_upper c then ascii_of_nat (code c + 32) else c.

(** [s.lower()] *)
Fixpoint lower (s : string) : string :=
  match s with
  | EmptyString => EmptyString
  | String c s' => String (lower_char c) (lower s')
  end.

(** [s.startswith(p)] *)
Fixpoint startswith (p s : string) : bool :=
  match p, s with
  | EmptyString, _ => true
  | String _ _, EmptyString => false
  | String a p', String b s' => Ascii.eqb a b && startswith p' s'
  end.

(** [sub in s] on strings *)
Fixpoint str_in (sub s : string) : bool :=
  startswith sub s
  || match s with
     | EmptyString => false
     | String _ s' => str_in sub s'
     end.

(** [s.split(sep)] for a one-character separator: never empty, and two
    adjacent separators give an empty word. *)
Fixpoint split_on (sep : ascii) (s : string) : list string :=
  match s with
  | EmptyString => [EmptyString]
  | String c s' =>
      if Ascii.eqb c sep then EmptyString :: split_on sep s'
      else match split_on sep s' with
           | [] => [String c EmptyString]
           | w :: ws => String c w :: ws
           end
  end.

(** [str.isspace] below 256, also the class [\s] of [re] on [str]. *)
Definition is_space (c : ascii) : bool :=
  ((9 <=? code c) && (code c <=? 13))
  || ((28 <=? code c) && (code c <=? 32))
  || (code c =? 133) || (code c =? 160).

(** [str.isdigit] below 256 as [re] uses it for [\d]: 0-9. *)
Definition is_digit (c : ascii) : bool :=
  (48 <=? code c) && (code c <=? 57).

Fixpoint lstrip (s : string) : string :=
  match s with
  | EmptyString => EmptyString
  | String c s' => if is_space c then lstrip s' else s
  end.

Fixpoint rstrip (s : string) : string :=
  match s with
  | EmptyString => EmptyString
  | String c s' =>
      match rstrip s' with
      | EmptyString => if is_space c then EmptyString else String c EmptyString
      | r => String c r
      end
  end.

(** [s.strip()] *)
Definition strip (s : string) : string := rstrip (lstrip s).

(** [re.sub(c, '', s)] for a one-character pattern [c]. *)
Fixpoint remove_char (c : ascii) (s : string) : string :=
  match s with
  | EmptyString => EmptyString
  | String a s' =>
      if Ascii.eqb a c then remove_char c s' else String a (remove_char c s')
  end.

(** [re.sub(r'[^\x00-\x7F]+', '', s)] *)
Fixpoint remove_non_ascii (s : string) : string :=
  match s with
  | EmptyString => EmptyString
  | String a s' =>
      if 128 <=? code a then remove_non_ascii s'
      else String a (remove_non_ascii s')
  end.

(** [bool(re.search(r'\d', s))] *)
Fixpoint has_digit (s : string) : bool :=
  match s with
  | EmptyString => false
  | String a s' => is_digit a || has_digit s'
  end.

(** [s.replace(c, t)] and [re.sub(c, t, s)] for a one-character [c]. *)
Fixpoint replace_char (c : ascii) (t : string) (s : string) : string :=
  match s with
  | EmptyString => EmptyString
  | String a s' =>
      if Ascii.eqb a c then String.append t (replace_char c t s')
      else String a (replace_char c t s')
  end.

(** [re.findall(r'\d{4}', s)]: the non-overlapping runs of four digits,
    leftmost first. *)
Fixpoint findall_d4 (s : string) : list string :=
  match s with
  | EmptyString => []
  | String a t1 =>
      match t1 with
      | String b (String c (String d rest)) =>
          if is_digit a && is_digit b && is_digit c && is_digit d
          then String a (String b (String c (String d EmptyString)))
                 :: findall_d4 rest
          else findall_d4 t1
      | _ => []
      end
  end.

End PyStr.


(** [l.remove(x)]: drops the first occurrence.  Python raises [ValueError]
    when there is none; every call below removes an element that the list
    holds (the loop variable, or the element appended just before). *)
Fixpoint list_remove (x : string) (l : list string) : list string :=
  match l with
  | [] => []
  | y :: l' => if String.eqb y x then l' else y :: list_remove x l'
  end.

(** [x in l] for a list of strings. *)
Definition str_mem (x : string) (l : list string) : bool :=
  existsb (String.eqb x) l.

(** ** query.py *)

(** The resource lists built by [_generate_replacement_queries] and
    [_generate_allowed_spaced_queries] at import. *)
Definition _REPLACEMENT_QUERIES : list (list string) :=
  [ ["nation"; "country"; "countries"; "nations"; "sovereign states"];
    ["president"; "presidents"; "prime minister"; "prime ministers"] ].

Definition _ALLOWED_SPACED_QUERIES : list string :=
  ["prime minister"; "prime ministers"; "united states"].

Definition _SUPPORTED_LIST_QUERIES : list string :=
  ["us presidents"; "sovereign states formation"].

(** The function whose frame [inspect.getouterframes] finds one level up. *)
Inductive Caller : Type :=
| External
| From_list_of_search_results
| From_parse_query_for_conditions.

Definition caller_may_clear_bypass (c : Caller) : bool :=
  match c with
  | External => false
  | _ => true
  end.

(** What [process_page] hands to the processing function: a page title, or,
    on the path where no candidate matched the hint, the whole result
    list. *)
Inductive page_arg : Type :=
| OneTitle (t : string)
| TitleList (l : list string).

(** What the loader and its producer do to the outside, in order. *)
Inductive Event : Type :=
| EvProduce
| EvRead (path : string)
| EvWrite (path : string).

(** The file system, the producer's environment, and the record of what
    was done to them. *)
Record World (Env : Type) : Type := mkWorld {
  files : gmap string string;
  dirs : gset string;
  env : Env;
  trace : list Event
}.
Arguments mkWorld {Env} files dirs env trace.
Arguments files {Env} _.
Arguments dirs {Env} _.
Arguments env {Env} _.
Arguments trace {Env} _.

(** The fields of an [InformationLoader]. *)
Record Loader (Data : Type) : Type := mkLoader {
  save_location : string;
  overwrite_data : bool;
  _is_loaded : bool;
  data : Data
}.
Arguments mkLoader {Data} save_location overwrite_data _is_loaded data.
Arguments save_location {Data} _.
Arguments overwrite_data {Data} _.
Arguments _is_loaded {Data} _.
Arguments data {Data} _.

(** ** Sample data for the worked examples *)

(** A search API that knows four titles, all found under the word list. *)
Definition sample_search (term : string) (results : nat) : list string :=
  if String.eqb term "list"
  then ["list of foo"; "List of Foo bar";
        "List of prime ministers of Japan"; "List of presidents of France"]
  else [].

Definition sample_nations : list (list string) :=
  [ ["france"; "fr"; "fra"]; ["japan"; "jp"; "jpn"] ].

(** One admissible [list(set(l))]: first occurrences, in order. *)
Fixpoint first_occurrences (l : list string) : list string :=
  match l with
  | [] => []
  | x :: l' => x :: filter (fun y => negb (String.eqb y x)) (first_occurrences l')
  end.

(** A page library in which one title is a disambiguation page. *)
Definition sample_page (term : string) : res string :=
  if String.eqb term "Georgia" then Raise DisambiguationError
  else Ok (String.append "https://en.wikipedia.org/wiki/" term).

(** A file system with one directory and one pickled file in it. *)
Definition sample_world : World nat :=
  mkWorld (<["/data/flag_data.pickle" := "stored"]> ∅) {["/data"]} 0 [].

(** The same directory, still empty. *)
Definition fresh_world : World nat :=
  mkWorld ∅ {["/data"]} 0 [].

(** A file system in which a regular file sits where the directory
    should be. *)
Definition file_parent_world : World nat :=
  mkWorld (<["/data" := "not a directory"]> ∅) ∅ 0 [].

(** A producer that counts its calls in the environment. *)
Definition sample_producer (calls : nat) : res string * nat :=
  (Ok "produced", S calls).

(** A producer that counts its calls and raises each time, the way
    [NationFlagInformationLoader.process_function] does on an empty search
    result. *)
Definition failing_producer (calls : nat) : res string * nat :=
  (Raise ValueError, S calls).

(** Whole numbers standing in for floats; the largest finite double is
    below [2 ^ 1024]. *)
Definition sample_truediv (count average : Z) : res Z :=
  if Z.leb (2 ^ 1024) (Z.abs count) then Raise OverflowError
  else if Z.eqb average 0 then Raise ZeroDivisionError
  else Ok (Z.div count average).


(** A founding-date table whose second row has no date with a digit. *)
Definition undated_rows : list (list string) :=
  [ ["France"; "1958"]; ["Japan"; "unknown"] ].


Definition sample_rows : list (list string) :=
  [ ["France"; "1958"]; ["Sources:"; ""]; ["Japan"; "1947 (current constitution)"] ].

(** An entry of [pycountry.countries], by the attributes the code reads. *)
Record Country : Type := mkCountry {
  name : string;
  alpha_2 : string;
  alpha_3 : string
}.

(** Two entries of the country list. *)
Definition sample_countries : list Country :=
  [ mkCountry "France" "FR" "FRA"; mkCountry "Korea, Republic of" "KR" "KOR" ].

(** A row of the executive-orders table that parses. *)
Definition sample_order_row : list string :=
  ["22"; "Grover Cleveland"; "Democratic"; "253"; "4"; "63"].

Section Repository.

(** [wk.search(term, results = n)]: the search API, an ordered list of
    page titles; the properties below are about searches that return. *)
Variable wk_search : string -> nat -> list string.

(** The values of [_NATION_DICT] in insertion order: one alias list per
    nation, filled from [pycountry] at import. *)
Variable _NATION_DICT : list (list string).

(** [list(set(l))]: the distinct elements of [l] in the order the
    interpreter's set iteration gives them. *)
Variable list_of_set : list string -> list string.

Definition is_valid_country (term : string) : bool :=
  existsb (fun value => str_mem (PyStr.lower term) value) _NATION_DICT.

Definition _merge_query_results (terms : list string) (output_thresh : nat)
  : list string :=
  fold_left (fun output_values term => output_values ++ wk_search term output_thresh)
            terms [].

(** The inner loop of [search_multiple_words]: [_track] stays true when
    no term is missing from the lower-cased title. *)
Definition _track (words : list string) (_lower_output : string) : bool :=
  fold_left (fun track term =>
               if negb (PyStr.str_in (PyStr.lower term) _lower_output)
               then false else track)
            words true.

Definition search_multiple_words (words : list string) (output_thresh : nat)
  : list string :=
  match words with
  | [w] => wk_search w output_thresh
  | _ =>
      let complete_output := _merge_query_results words output_thresh in
      let _tracker_output := map PyStr.lower complete_output in
      map snd (filter (fun p => _track words (fst p))
                      (combine _tracker_output complete_output))
  end.

(** The first loop of [list_of_search_results]: a term with a space that
    is not a registered spaced query is split into its words. *)
Definition split_terms (_validation_list : list string) : list string :=
  fold_left (fun terms term =>
               if PyStr.str_in " " term
                  && negb (str_mem term _ALLOWED_SPACED_QUERIES)
               then terms ++ PyStr.split_on " " term
               else terms ++ [term])
            _validation_list [].

(** The nested loops [for term in _filter_terms: for group in groups:
    if term in group], stopped at the first hit. *)
Fixpoint first_match (groups : list (list string)) (terms : list string)
  : option (string * list string) :=
  match terms with
  | [] => None
  | term :: rest =>
      match find (fun group => str_mem term group) groups with
      | Some group => Some (term, group)
      | None => first_match groups rest
      end
  end.

(** The fan-out loop shared by the nation branch and the replacement
    branch of [_parse_query_for_conditions]: append the member, search,
    remove the member again. *)
Fixpoint fan_out (search : list string -> option (res (list string)))
         (members _filter_terms _output : list string)
  : option (res (list string)) :=
  match members with
  | [] => Some (Ok _output)
  | member :: rest =>
      let queried := _filter_terms ++ [member] in
      match search queried with
      | None => None
      | Some (Raise e) => Some (Raise e)
      | Some (Ok found) =>
          fan_out search rest (list_remove member queried) (_output ++ found)
      end
  end.

(** The tail of [list_of_search_results], reached with the bypass flag
    cleared: the terms and the word list go to [search_multiple_words],
    and the result is filtered for uniqueness. *)
Definition search_with_list (terms : list string) : list string :=
  let output_list :=
    match terms with
    | [term] => search_multiple_words [PyStr.lower term; "list"] 100
    | _ => search_multiple_words (map PyStr.lower terms ++ ["list"]) 100
    end in
  list_of_set output_list.

(** [list_of_search_results] and [_parse_query_for_conditions] call each
    other; [fuel] bounds the call depth and [None] means it ran out.
    [kwargs] holds the names of the extra keyword arguments. *)
Fixpoint list_of_search_results (fuel : nat) (caller : Caller)
         (terms : list string) (bypass : bool) (kwargs : list string)
  : option (res (list string)) :=
  match fuel with
  | 0 => None
  | S fuel' =>
      if negb bypass && negb (caller_may_clear_bypass caller)
      then Some (Raise PermissionError)
      else
        let terms := split_terms terms in
        if bypass
        then _parse_query_for_conditions fuel' terms kwargs
        else Some (Ok (search_with_list terms))
  end
with _parse_query_for_conditions (fuel : nat) (terms kwargs : list string)
  : option (res (list string)) :=
  match fuel with
  | 0 => None
  | S fuel' =>
      let search := fun q =>
        list_of_search_results fuel' From_parse_query_for_conditions q false [] in
      match first_match _NATION_DICT terms with
      | Some (term, _value_pair) =>
          fan_out search _value_pair (list_remove term terms) []
      | None =>
          if negb (str_mem "skip_replacement_queries" kwargs)
          then match first_match _REPLACEMENT_QUERIES terms with
               | Some (term, _query_matches) =>
                   fan_out search _query_matches (list_remove term terms) []
               | None => search terms
               end
          else search terms
      end
  end.

(** What [list_of_search_results] returns to
    [_parse_query_for_conditions], which calls it on the query [q] with
    [bypass = False]. *)
Definition plain_search (q : list string) : list string :=
  search_with_list (split_terms q).

(** The queries the fan-out loop issues, one per member. *)
Fixpoint fan_out_queries (members _filter_terms : list string)
  : list (list string) :=
  match members with
  | [] => []
  | member :: rest =>
      (_filter_terms ++ [member])
        :: fan_out_queries rest (list_remove member (_filter_terms ++ [member]))
  end.

(** The special cases at the head of [process_page]. *)
Fixpoint supported_special_case (search_terms : list string) : option string :=
  match search_terms with
  | [] => None
  | search_term :: rest =>
      if str_mem search_term _SUPPORTED_LIST_QUERIES
      then if String.eqb search_term "us presidents"
           then Some "List of presidents of the United States"
           else if String.eqb search_term "sovereign states formation"
                then Some "List of sovereign states by dates of formation"
                else supported_special_case rest
      else supported_special_case rest
  end.

(** The hint loop of [process_page]: each candidate is tested for the
    hint as a substring and then for case-insensitive equality, and the
    loop breaks at the first candidate passing either test. *)
Fixpoint hint_loop (specific_query : string) (candidates : list string)
  : option string :=
  match candidates with
  | [] => None
  | _check_list :: rest =>
      if PyStr.str_in specific_query _check_list then Some _check_list
      else if String.eqb (PyStr.lower specific_query) (PyStr.lower _check_list)
           then Some _check_list
           else hint_loop specific_query rest
  end.

(** The choice among the candidates as the specification words it: the
    first candidate holding the hint as a substring, failing that the first
    case-insensitive equal, failing that the first search result. *)
Definition spec_hint_choice (hint : string) (candidates : list string)
  : option string :=
  match find (PyStr.str_in hint) candidates with
  | Some c => Some c
  | None =>
      match find (fun c => String.eqb (PyStr.lower hint) (PyStr.lower c))
                 candidates with
      | Some c => Some c
      | None => match candidates with
                | c :: _ => Some c
                | [] => None
                end
      end
  end.

(** Calling [processing_function]; [None] is not callable. *)
Definition call_processing {T : Type}
           (processing_function : option (page_arg -> res T)) (a : page_arg)
  : res T :=
  match processing_function with
  | Some f => f a
  | None => Raise TypeError
  end.

Definition process_page {T : Type} (fuel : nat) (search_terms : list string)
           (specific_query : option string)
           (processing_function : option (page_arg -> res T))
  : option (res T) :=
  match supported_special_case search_terms with
  | Some title => Some (call_processing processing_function (OneTitle title))
  | None =>
      let results :=
        list_of_search_results fuel External search_terms true
                               ["skip_replacement_queries"] in
      let hinted :=
        match specific_query with
        | Some (String _ _ as q) => Some q
        | _ => None
        end in
      match results with
      | None => None
      | Some (Raise e) => Some (Raise e)
      | Some (Ok candidates) =>
          let _valid_list :=
            match hinted with
            | Some q =>
                match hint_loop q candidates with
                | Some found => Ok (OneTitle found)
                | None => Ok (TitleList candidates)
                end
            | None =>
                match candidates with
                | first :: _ => Ok (OneTitle first)
                | [] => Raise IndexError
                end
            end in
          Some (res_bind _valid_list (fun v =>
                  match processing_function with
                  | None => Raise ValueError
                  | Some f => f v
                  end))
      end
  end.

(** *** Page information *)

(** [wk.page(term, auto_suggest = False).url]: the page's address, or the
    exception the library raises ([DisambiguationError], [PageError]). *)
Variable wk_page : string -> res string.

(** The texts of the [<p>] elements inside the content division of the
    page fetched from the address, for a fetch that returns; [None] when
    the division is absent. *)
Variable page_paragraphs : string -> option (list string).

(** The characters that [\[.{0,3}\]] consumes after an opening bracket,
    longest filling first; the dot matches anything but a newline. *)
Definition bracket3_len (s : string) : option nat :=
  let dot := fun c => negb (PyStr.code c =? 10) in
  let closes := fun t => match t with
                         | String c _ => PyStr.code c =? 93
                         | EmptyString => false
                         end in
  match s with
  | String a (String b (String c t)) =>
      if dot a && dot b && dot c && closes t then Some 4
      else if dot a && dot b && closes (String c t) then Some 3
      else if dot a && closes (String b (String c t)) then Some 2
      else if closes s then Some 1 else None
  | String a (String b t) =>
      if dot a && dot b && closes t then Some 3
      else if dot a && closes (String b t) then Some 2
      else if closes s then Some 1 else None
  | String a t =>
      if dot a && closes t then Some 2
      else if closes s then Some 1 else None
  | EmptyString => None
  end.

(** [re.sub('\\[.{0,3}\\]', '', item)]; [skip] counts the characters of
    the current match still to drop. *)
Fixpoint sub_short_brackets (skip : nat) (s : string) : string :=
  match s with
  | EmptyString => EmptyString
  | String c s' =>
      match skip with
      | S k => sub_short_brackets k s'
      | 0 =>
          if PyStr.code c =? 91
          then match bracket3_len s' with
               | Some n => sub_short_brackets n s'
               | None => String c (sub_short_brackets 0 s')
               end
          else String c (sub_short_brackets 0 s')
      end
  end.

(** The second substitution of [_pretty_parse]: a period gets a space
    after it unless whitespace, the end of the text, a double quote or an
    apostrophe follows. *)
Fixpoint space_after_periods (s : string) : string :=
  match s with
  | EmptyString => EmptyString
  | String c s' =>
      if PyStr.code c =? 46
      then match s' with
           | EmptyString => String c EmptyString
           | String d _ =>
               if PyStr.is_space d || (PyStr.code d =? 34) || (PyStr.code d =? 39)
               then String c (space_after_periods s')
               else String c (String " " (space_after_periods s'))
           end
      else String c (space_after_periods s')
  end.

Definition _pretty_parse (item : string) : string :=
  let item := sub_short_brackets 0 item in
  let item := space_after_periods item in
  let item := PyStr.remove_non_ascii item in
  PyStr.replace_char "010" ", " item.

(** [parse_page_information] on a string [term], which passes the
    [isinstance] test at its head. *)
Definition parse_page_information (term : string) : res string :=
  match wk_page term with
  | Raise DisambiguationError => Raise ValueError
  | Raise e => Raise e
  | Ok page_url =>
      match page_paragraphs page_url with
      | None => Raise AttributeError
      | Some items =>
          let complete_information :=
            fold_left (fun acc item =>
                         if str_mem (PyStr.strip item) ["Sources:"] then acc
                         else String.append acc (PyStr.strip item))
                      items "" in
          Ok (_pretty_parse complete_information)
      end
  end.

(** *** InformationLoader *)

(** The parsed information a loader holds; [py_None] is Python's [None],
    the value of [self.data] before anything is loaded. *)
Variable Data : Type.
Variable py_None : Data.

(** [pickle.dump] and [pickle.load] on the file's content. *)
Variable pickle_dumps : Data -> string.
Variable pickle_loads : string -> option Data.

(** Whatever the producer reads and changes outside the loader's own
    file: the network, the image directory. *)
Variable Env : Type.

(** The subclass's [process_function]: the producer returns the parsed
    data or raises, and changes its environment either way. *)
Variable process_function : Env -> res Data * Env.

Fixpoint has_slash (p : string) : bool :=
  match p with
  | EmptyString => false
  | String c p' => (PyStr.code c =? 47) || has_slash p'
  end.

(** [p[:p.rfind('/') + 1]] *)
Fixpoint upto_last_slash (p : string) : string :=
  match p with
  | EmptyString => EmptyString
  | String c p' => if has_slash p then String c (upto_last_slash p') else EmptyString
  end.

Fixpoint all_slashes (p : string) : bool :=
  match p with
  | EmptyString => true
  | String c p' => (PyStr.code c =? 47) && all_slashes p'
  end.

Fixpoint rstrip_slashes (p : string) : string :=
  match p with
  | EmptyString => EmptyString
  | String c p' =>
      match rstrip_slashes p' with
      | EmptyString => if PyStr.code c =? 47 then EmptyString else String c EmptyString
      | r => String c r
      end
  end.

(** [os.path.dirname] of [posixpath]. *)
Definition dirname (p : string) : string :=
  let head := upto_last_slash p in
  if negb (String.eqb head "") && negb (all_slashes head)
  then rstrip_slashes head else head.

(** [os.path.exists]: false on the empty path. *)
Definition path_exists (w : World Env) (p : string) : bool :=
  negb (String.eqb p "")
  && (bool_decide (p ∈ dirs w) || bool_decide (is_Some (files w !! p))).

(** [open(p, 'wb')] followed by [pickle.dump]: the directory that is to
    hold the file has to exist (the working directory for a bare name),
    and [p] must not be a directory itself. *)
Definition write_file (p content : string) (w : World Env) : res unit * World Env :=
  if String.eqb p "" then (Raise FileNotFoundError, w)
  else if bool_decide (p ∈ dirs w) then (Raise IsADirectoryError, w)
  else if String.eqb (dirname p) "" || bool_decide (dirname p ∈ dirs w)
  then (Ok tt, mkWorld (<[p := content]> (files w)) (dirs w) (env w)
                       (trace w ++ [EvWrite p]))
  else if bool_decide (is_Some (files w !! dirname p))
  then (Raise NotADirectoryError, w)
  else (Raise FileNotFoundError, w).

(** [open(p, 'rb')] followed by [pickle.load]. *)
Definition read_file (p : string) (w : World Env) : res Data * World Env :=
  match files w !! p with
  | Some content =>
      let w' := mkWorld (files w) (dirs w) (env w) (trace w ++ [EvRead p]) in
      match pickle_loads content with
      | Some d => (Ok d, w')
      | None => (Raise UnpicklingError, w')
      end
  | None =>
      if bool_decide (p ∈ dirs w) then (Raise IsADirectoryError, w)
      else (Raise FileNotFoundError, w)
  end.

(** One call of [self.process_function()], on record whether it returns
    or raises. *)
Definition produce (w : World Env) : res Data * World Env :=
  let '(r, e') := process_function (env w) in
  (r, mkWorld (files w) (dirs w) e' (trace w ++ [EvProduce])).

(** [InformationLoader.__init__] *)
Definition __init__ (save_location : string) (overwrite_data : bool) (w : World Env)
  : res (Loader Data) * World Env :=
  if String.eqb save_location "" then (Raise ValueError, w)
  else if negb (path_exists w (dirname save_location))
  then (Raise NotADirectoryError, w)
  else (Ok (mkLoader save_location overwrite_data false py_None), w).

Definition set_loaded (self : Loader Data) (d : Data) : Loader Data :=
  mkLoader (save_location self) (overwrite_data self) true d.

(** [InformationLoader._load_or_parse]: [self.data] and [self._is_loaded]
    are assigned after the producer or [pickle.load] has returned, so the
    loader comes back unchanged when either raises. *)
Definition _load_or_parse (self : Loader Data) (w : World Env)
  : res Data * Loader Data * World Env :=
  if _is_loaded self then (Ok (data self), self, w)
  else if overwrite_data self then
    match produce w with
    | (Ok d, w') => (Ok d, set_loaded self d, w')
    | (Raise e, w') => (Raise e, self, w')
    end
  else if path_exists w (save_location self) then
    match read_file (save_location self) w with
    | (Ok d, w') => (Ok d, set_loaded self d, w')
    | (Raise e, w') => (Raise e, self, w')
    end
  else
    match produce w with
    | (Ok d, w') => (Ok d, set_loaded self d, w')
    | (Raise e, w') => (Raise e, self, w')
    end.

Definition __enter__ (self : Loader Data) (w : World Env) : res Data * Loader Data * World Env :=
  _load_or_parse self w.

(** [InformationLoader.__exit__] *)
Definition __exit__ (self : Loader Data) (w : World Env) : res unit * World Env :=
  if negb (path_exists w (save_location self))
  then write_file (save_location self) (pickle_dumps (data self)) w
  else if path_exists w (save_location self) && overwrite_data self
  then write_file (save_location self) (pickle_dumps (data self)) w
  else (Ok tt, w).

(** [with self as info: pass]: [__exit__] runs when [__enter__] returned,
    and what it raises replaces the value. *)
Definition scoped_use (self : Loader Data) (w : World Env) : res Data * Loader Data * World Env :=
  match __enter__ self w with
  | (Ok d, self', w') =>
      match __exit__ self' w' with
      | (Ok _, w'') => (Ok d, self', w'')
      | (Raise e, w'') => (Raise e, self', w'')
      end
  | (Raise e, self', w') => (Raise e, self', w')
  end.

(** [n] scoped uses of one loader, one after the other. *)
Fixpoint scoped_uses (n : nat) (self : Loader Data) (w : World Env) : Loader Data * World Env :=
  match n with
  | 0 => (self, w)
  | S n' =>
      let '(_, self', w') := scoped_use self w in scoped_uses n' self' w'
  end.

(** Constructing a loader and using it once:
    [with Loader(save_location, overwrite_data) as info: pass]. *)
Definition construct_and_use (save_location : string) (overwrite_data : bool)
           (w : World Env) : res Data * World Env :=
  match __init__ save_location overwrite_data w with
  | (Raise e, w') => (Raise e, w')
  | (Ok self, w') => let '(r, _, w'') := scoped_use self w' in (r, w'')
  end.

(** The number of producer calls on record. *)
Definition produce_count (w : World Env) : nat :=
  length (filter (fun e => match e with EvProduce => true | _ => false end)
                 (trace w)).

(** *** nations/info.py *)

(** The characters that the lazy pattern [\[(.*?)\]] consumes after an
    opening bracket: up to the nearest closing bracket on the same line. *)
Fixpoint lazy_bracket_len (s : string) : option nat :=
  match s with
  | EmptyString => None
  | String c s' =>
      if PyStr.code c =? 93 then Some 1
      else if PyStr.code c =? 10 then None
      else option_map S (lazy_bracket_len s')
  end.

(** [re.sub('\\[(.*?)\\]', '', s)] *)
Fixpoint sub_brackets (skip : nat) (s : string) : string :=
  match s with
  | EmptyString => EmptyString
  | String c s' =>
      match skip with
      | S k => sub_brackets k s'
      | 0 =>
          if PyStr.code c =? 91
          then match lazy_bracket_len s' with
               | Some n => sub_brackets n s'
               | None => String c (sub_brackets 0 s')
               end
          else String c (sub_brackets 0 s')
      end
  end.

(** The rows of the fetched page as [find_all('tr')] and [find_all('td')]
    give them, each cell by its text; or the exception the fetch raises. *)
Variable page_rows : string -> res (list (list string)).

(** [value.text.split('\n')] with the blank entries removed one by one. *)
Definition cell_lines (text : string) : list string :=
  let current_value := PyStr.split_on "010" text in
  fold_left (fun cur val => if String.eqb val "" then list_remove val cur else cur)
            current_value current_value.

(** The loop variables of the cell loop: [is_nation] is [False] ([None])
    or a nation's name. *)
Record cell_state : Type := mkCellState {
  is_nation : option string;
  _nation_tracker : list string;
  _date_tracker : list string
}.

Definition truthy (is_nation : option string) : bool :=
  match is_nation with
  | Some (String _ _) => true
  | _ => false
  end.

Definition is_nation_eq (is_nation : option string) (name : string) : bool :=
  match is_nation with
  | Some n => String.eqb n name
  | None => false
  end.

(** How one pass through a loop body ends. *)
Inductive flow (S : Type) : Type :=
| Next (s : S)
| Break (s : S)
| Fail (e : exn).
Arguments Next {S} s.
Arguments Break {S} s.
Arguments Fail {S} e.

Definition add_date (st : cell_state) (d : string) : cell_state :=
  mkCellState (is_nation st) (_nation_tracker st) (_date_tracker st ++ [d]).

(** The tail of the cell loop's body, from [if len(current_value) == 0]. *)
Definition nation_check (current_value : list string) (st : cell_state)
  : flow cell_state :=
  match current_value with
  | [] => Break st
  | first :: _ =>
      let potential_nation := PyStr.strip (PyStr.remove_char "160" first) in
      let potential_nation := sub_brackets 0 potential_nation in
      let potential_nation := PyStr.remove_non_ascii potential_nation in
      if is_valid_country (PyStr.strip potential_nation)
      then if str_mem potential_nation (_nation_tracker st)
           then Break st
           else
             let potential_nation :=
               if String.eqb (PyStr.strip potential_nation) "Cabo Verde"
               then "Cape Verde" else potential_nation in
             Next (mkCellState (Some potential_nation)
                               (_nation_tracker st ++ [potential_nation])
                               (_date_tracker st))
      else Next st
  end.

(** The date test of the second and third column. *)
Definition date_column (current_value : list string) (st : cell_state)
  : flow cell_state :=
  match current_value with
  | [] => Next st
  | first :: _ =>
      if PyStr.has_digit first then Break (add_date st first) else Next st
  end.

(** The body of [for indx, value in enumerate(data_values)]. *)
Definition cell_step (indx : nat) (value : string) (st : cell_state)
  : flow cell_state :=
  let current_value := cell_lines value in
  if truthy (is_nation st)
  then
    if is_nation_eq (is_nation st) "Iceland"
    then Break (add_date st "1 July 1845")
    else if indx =? 1 then date_column current_value st
    else if indx =? 2
    then if is_nation_eq (is_nation st) "China" then Next st
         else date_column current_value st
    else if indx =? 3
    then match current_value with
         | [] => Fail IndexError
         | first :: _ => nation_check current_value (add_date st first)
         end
    else Next st
  else nation_check current_value st.

Fixpoint cells_loop (indx : nat) (data_values : list string) (st : cell_state)
  : res cell_state :=
  match data_values with
  | [] => Ok st
  | value :: rest =>
      match cell_step indx value st with
      | Next st' => cells_loop (S indx) rest st'
      | Break st' => Ok st'
      | Fail e => Raise e
      end
  end.

(** [for table in tables]: every row starts with [is_nation = False]. *)
Fixpoint rows_loop (tables : list (list string)) (nations dates : list string)
  : res (list string * list string) :=
  match tables with
  | [] => Ok (nations, dates)
  | data_values :: rest =>
      match cells_loop 0 data_values (mkCellState None nations dates) with
      | Ok st => rows_loop rest (_nation_tracker st) (_date_tracker st)
      | Raise e => Raise e
      end
  end.

(** [d[key] = value] on a dictionary kept in insertion order. *)
Fixpoint dict_set {V : Type} (d : list (string * V)) (key : string) (value : V)
  : list (string * V) :=
  match d with
  | [] => [(key, value)]
  | (k, v) :: d' =>
      if String.eqb k key then (k, value) :: d'
      else (k, v) :: dict_set d' key value
  end.

(** The closing loop over [zip(_nation_tracker, _date_tracker)]. *)
Fixpoint years_loop (pairs : list (string * string))
         (founding_dates : list (string * string))
  : res (list (string * string)) :=
  match pairs with
  | [] => Ok founding_dates
  | (nation, date) :: rest =>
      if str_mem nation ["Czechia"; "Palestine"]
      then years_loop rest founding_dates
      else match PyStr.findall_d4 date with
           | [] => Raise IndexError
           | _founding_date :: _ =>
               years_loop rest (dict_set founding_dates nation _founding_date)
           end
  end.

(** The extraction proper, on the rows of the page. *)
Definition founding_dates_of_rows (tables : list (list string))
  : res (list (string * string)) :=
  match rows_loop tables [] [] with
  | Raise e => Raise e
  | Ok (nations, dates) => years_loop (combine nations dates) []
  end.

Definition nation_founding_date_processing_function (term : string)
  : res (list (string * string)) :=
  res_bind (page_rows term) founding_dates_of_rows.

(** *** presidents/executive_orders.py *)

(** Floating-point numbers and [float(text)], where [None] is
    [ValueError]; [int / float] raises [ZeroDivisionError] for a zero
    divisor and [OverflowError] for an integer too large for a float. *)
Variable F : Type.
Variable py_float : string -> option F.
Variable truediv : Z -> F -> res F.

(** The rows of the first [wikitable] of the executive-orders page. *)
Variable executive_orders_rows : res (list (list string)).

(** The digits of [int(text)]: decimal digits in groups joined by single
    underscores. *)
Fixpoint int_digits (acc : Z) (after_digit : bool) (s : string) : option Z :=
  match s with
  | EmptyString => if after_digit then Some acc else None
  | String c s' =>
      if PyStr.is_digit c
      then int_digits (10 * acc + Z.of_nat (PyStr.code c - 48)) true s'
      else if (PyStr.code c =? 95) && after_digit
           then match s' with
                | String d _ => if PyStr.is_digit d then int_digits acc false s'
                                else None
                | EmptyString => None
                end
           else None
  end.

(** [int(text)] in base ten: surrounding whitespace, one optional sign. *)
Definition py_int (text : string) : option Z :=
  match PyStr.strip text with
  | EmptyString => None
  | String c rest as t =>
      if PyStr.code c =? 45 then option_map Z.opp (int_digits 0 false rest)
      else if PyStr.code c =? 43 then int_digits 0 false rest
      else int_digits 0 false t
  end.

(** What [_tracker_list] collects. *)
Inductive tracked : Type :=
| TName (name : string)
| TCount (count : Z)
| TAverage (average : F).

(** [for indx, item in enumerate(row.find_all('td'))] *)
Fixpoint orders_cells (indx : nat) (cells : list string)
         (_tracker_list : list tracked) : res (list tracked) :=
  match cells with
  | [] => Ok _tracker_list
  | item :: rest =>
      let text := PyStr.strip item in
      if str_mem text ["Sources:"]
      then orders_cells (S indx) rest _tracker_list
      else
        let with_name :=
          if indx =? 1 then _tracker_list ++ [TName text] else _tracker_list in
        let with_count :=
          if indx =? 3
          then match py_int (PyStr.remove_char "," text) with
               | Some n => Ok (with_name ++ [TCount n])
               | None => Raise ValueError
               end
          else Ok with_name in
        match with_count with
        | Raise e => Raise e
        | Ok tracked_so_far =>
            if indx =? 5
            then match py_float (PyStr.remove_char "," text) with
                 | Some x => Ok (tracked_so_far ++ [TAverage x])
                 | None => Raise ValueError
                 end
            else orders_cells (S indx) rest tracked_so_far
        end
  end.

(** The body of [for row in main_table.find_all('tr')]. *)
Definition orders_row (row : list string) (executive_orders : list (string * (Z * F)))
  : res (list (string * (Z * F))) :=
  match orders_cells 0 row [] with
  | Raise e => Raise e
  | Ok _tracker_list =>
      if length _tracker_list =? 3
      then match _tracker_list with
           | [TName name; TCount count; TAverage average] =>
               match truediv count average with
               | Ok per_year => Ok (dict_set executive_orders name (count, per_year))
               | Raise e => Raise e
               end
           | _ => Raise TypeError
           end
      else Ok executive_orders
  end.

Fixpoint orders_rows (rows : list (list string))
         (executive_orders : list (string * (Z * F)))
  : res (list (string * (Z * F))) :=
  match rows with
  | [] => Ok executive_orders
  | row :: rest =>
      match orders_row row executive_orders with
      | Ok executive_orders' => orders_rows rest executive_orders'
      | Raise e => Raise e
      end
  end.

Definition get_list_of_executive_orders : res (list (string * (Z * F))) :=
  res_bind executive_orders_rows (fun rows => orders_rows rows []).

(** *** Helper notions for the properties *)

(** [c in s] for one character. *)
Fixpoint has_char (c : ascii) (s : string) : bool :=
  match s with
  | EmptyString => false
  | String a s' => Ascii.eqb c a || has_char c s'
  end.

(** What the first loop of [list_of_search_results] appends for one term. *)
Definition split_term (term : string) : list string :=
  if PyStr.str_in " " term && negb (str_mem term _ALLOWED_SPACED_QUERIES)
  then PyStr.split_on " " term
  else [term].

(** Every character is below 128. *)
Fixpoint all_ascii (s : string) : bool :=
  match s with
  | EmptyString => true
  | String a s' => (PyStr.code a <? 128) && all_ascii s'
  end.

(** A string of exactly four decimal digits. *)
Definition four_digits (y : string) : bool :=
  match y with
  | String a (String b (String c (String d EmptyString))) =>
      PyStr.is_digit a && PyStr.is_digit b && PyStr.is_digit c && PyStr.is_digit d
  | _ => false
  end.

(** What admits a name to [_nation_tracker]: the stripped name is a valid
    country, or it is the one renamed entry. *)
Definition tracked_nation (n : string) : Prop :=
  is_valid_country (PyStr.strip n) = true \/ n = "Cape Verde".



(** An opening bracket that [sub_brackets] would match: a closing bracket
    follows on the same line. *)
Fixpoint has_bracket_pair (s : string) : bool :=
  match s with
  | EmptyString => false
  | String c s' =>
      ((PyStr.code c =? 91)
       && match lazy_bracket_len s' with Some _ => true | None => false end)
      || has_bracket_pair s'
  end.

(** *** presidents/info.py and presidents/dates.py *)

(** The rows of the first [wikitable] of the page of a term, each cell by
    its text; or the exception the fetch raises. *)
Variable wikitable_rows : string -> res (list (list string)).

(** The cell loop of [us_president_political_parties_processing_function]:
    the cell at index four, unless it reads as the sentinel, gives a party,
    with its bracketed markers removed. *)
Fixpoint party_cells (indx : nat) (cells : list string)
         (political_parties : list string) : list string :=
  match cells with
  | [] => political_parties
  | item :: rest =>
      if str_mem (PyStr.strip item) ["Sources:"]
      then party_cells (S indx) rest political_parties
      else if indx =? 4
           then party_cells (S indx) rest
                  (political_parties ++ [sub_brackets 0 (PyStr.strip item)])
           else party_cells (S indx) rest political_parties
  end.

(** What one row adds to the parties: its fifth cell, if it has one that
    is not the sentinel. *)
Definition row_party (row : list string) : list string :=
  match nth_error row 4 with
  | Some item =>
      if str_mem (PyStr.strip item) ["Sources:"] then []
      else [sub_brackets 0 (PyStr.strip item)]
  | None => []
  end.

Definition party_rows (rows : list (list string)) : list string :=
  fold_left (fun political_parties row => party_cells 0 row political_parties)
            rows [].

Definition us_president_political_parties_processing_function (term : string)
  : res (list string) :=
  res_bind (wikitable_rows term) (fun rows => Ok (party_rows rows)).

(** The loop of [PresidentialInformationLoader.process_function] over the
    list of presidents. *)
Fixpoint presidential_information (presidents info_list : list string)
  : res (list string) :=
  match presidents with
  | [] => Ok info_list
  | president :: rest =>
      match parse_page_information president with
      | Ok info => presidential_information rest (info_list ++ [info])
      | Raise e => Raise e
      end
  end.

Definition presidential_process_function (presidents : list string)
  : res (list string) :=
  presidential_information presidents [].

(** *** The nation dictionary *)

(** [s.endswith(suffix)] *)
Fixpoint endswith (suffix s : string) : bool :=
  String.eqb suffix s
  || match s with
     | EmptyString => false
     | String _ s' => endswith suffix s'
     end.

(** [s.split(', ')] *)
Fixpoint split_comma_space (s : string) : list string :=
  match s with
  | EmptyString => [EmptyString]
  | String c s' =>
      match s' with
      | String d s'' =>
          if (PyStr.code c =? 44) && (PyStr.code d =? 32)
          then EmptyString :: split_comma_space s''
          else match split_comma_space s' with
               | [] => [String c EmptyString]
               | w :: ws => String c w :: ws
               end
      | EmptyString => [String c EmptyString]
      end
  end.

(** The two names of a country: a name of the shape [X, Y of] is taken
    apart and put together as [Y of X]. [None] is the [ValueError] of
    unpacking anything but two parts. *)
Definition country_names (item : Country) : option (string * string) :=
  if PyStr.str_in "," (name item)
     && (endswith "of" (name item) || endswith "of the" (name item))
  then match split_comma_space (name item) with
       | [country_name; country_official_name] =>
           Some (country_name,
                 String.append country_official_name
                               (String.append " " country_name))
       | _ => None
       end
  else Some (name item, name item).

(** The alias list of one country: the distinct names and codes in lower
    case, then the manual additions. *)
Definition country_sublist (item : Country)
           (country_name country_official_name : string) : list string :=
  let _sublist :=
    list_of_set [country_name; country_official_name; alpha_2 item; alpha_3 item] in
  let _sublist := map PyStr.lower _sublist in
  let _sublist :=
    if String.eqb country_official_name "Brunei Darussalam"
    then _sublist ++ ["brunei"] else _sublist in
  let _sublist :=
    if String.eqb country_official_name "Democratic People's Republic of Korea"
    then _sublist ++ ["north korea"] else _sublist in
  let _sublist :=
    if String.eqb country_official_name "Republic of Korea"
    then _sublist ++ ["south korea"] else _sublist in
  if String.eqb country_official_name "Cabo Verde"
  then _sublist ++ ["cape verde"] else _sublist.

(** The loop of [_generate_nation_dict]; the dictionary is kept as the
    list of its values, in the order of the keys [0, 1, ...]. *)
Fixpoint country_entries (countries : list Country) (entries : list (list string))
  : option (list (list string)) :=
  match countries with
  | [] => Some entries
  | item :: rest =>
      match country_names item with
      | None => None
      | Some (country_name, country_official_name) =>
          country_entries rest
            (entries ++ [country_sublist item country_name country_official_name])
      end
  end.

(** How [_generate_nation_dict] ends. *)
Inductive generated : Type :=
| Generated (values : list (list string))
| UnpackError
| UnboundIndex.

(** [_generate_nation_dict]: with no country at all the loop variable
    [indx] is unbound when the two manual items are added. *)
Definition _generate_nation_dict (countries : list Country) : generated :=
  match countries with
  | [] => UnboundIndex
  | _ =>
      match country_entries countries [] with
      | None => UnpackError
      | Some entries => Generated (entries ++ [["East Timor"]; ["Timor-Leste"]])
      end
  end.

(** *** Paths *)

(** [s.rfind(c)]: [None] stands for -1. *)
Fixpoint rfind (c : ascii) (s : string) : option nat :=
  match s with
  | EmptyString => None
  | String a s' =>
      match rfind c s' with
      | Some i => Some (S i)
      | None => if Ascii.eqb c a then Some 0 else None
      end
  end.

(** [s[:n]] and [s[n:]] *)
Fixpoint str_take (n : nat) (s : string) : string :=
  match n, s with
  | S k, String a s' => String a (str_take k s')
  | _, _ => EmptyString
  end.

Fixpoint str_drop (n : nat) (s : string) : string :=
  match n, s with
  | S k, String _ s' => str_drop k s'
  | _, _ => s
  end.

(** The index after the last slash: [p.rfind('/') + 1]. *)
Definition filename_index (p : string) : nat :=
  match rfind "/" p with
  | Some sepIndex => S sepIndex
  | None => 0
  end.

(** [os.path.splitext]: the extension starts at the last dot, provided
    the dot comes after the last slash and some character between the two
    is not a dot. *)
Definition splitext (p : string) : string * string :=
  match rfind "." p with
  | None => (p, EmptyString)
  | Some dotIndex =>
      if (filename_index p <=? dotIndex)
         && existsb (fun i => match String.get i p with
                              | Some c => negb (Ascii.eqb c ".")
                              | None => true
                              end)
                    (seq (filename_index p) (dotIndex - filename_index p))
      then (str_take dotIndex p, str_drop dotIndex p)
      else (p, EmptyString)
  end.

(** [os.path.basename] *)
Definition basename (p : string) : string := str_drop (filename_index p) p.

(** [get_base_path_name] of [query.py] *)
Definition get_base_path_name (file : string) : string :=
  fst (splitext (basename file)).

(** [convert_path_extension] of [graphics.py] *)
Definition convert_path_extension (path conversion : string) : string :=
  let '(filename, _) := splitext path in
  String.append filename conversion.

(** ** Properties of the query layer *)

(** A proof depends on the parameters its statement names, no others. *)
Set Default Proof Using "Type".

Lemma track_forallb (words : list string) (lo : string) (b : bool) :
  fold_left (fun track term =>
               if negb (PyStr.str_in (PyStr.lower term) lo) then false else track)
            words b
  = b && forallb (fun term => PyStr.str_in (PyStr.lower term) lo) words.
Proof.
  revert b. induction words as [|w ws IH]; intros b; simpl.
  - now rewrite andb_true_r.
  - rewrite IH. destruct (PyStr.str_in (PyStr.lower w) lo), b; reflexivity.
Qed.

Lemma combine_map_fst {A B : Type} (f : B -> A) (l : list B) (a : A) (b : B) :
  In (a, b) (combine (map f l) l) -> a = f b.
Proof.
  induction l as [|x l IH]; simpl; [intros []|].
  intros [H|H]; [inversion H; reflexivity | auto].
Qed.

(** C10: with two or more words, every returned title holds every word,
    case-insensitively. *)
Theorem search_multiple_words_keeps_full_matches
        (words : list string) (output_thresh : nat) :
  2 <= length words ->
  forall title, In title (search_multiple_words words output_thresh) ->
  forall word, In word words ->
  PyStr.str_in (PyStr.lower word) (PyStr.lower title) = true.
Proof.
  intros Hlen title Hin word Hword.
  assert (Hmerge : In title
            (map snd (filter (fun p => _track words (fst p))
               (combine (map PyStr.lower (_merge_query_results words output_thresh))
                        (_merge_query_results words output_thresh))))).
  { destruct words as [|w1 [|w2 ws]]; simpl in Hlen; try lia. exact Hin. }
  apply in_map_iff in Hmerge as [[lo t] [Heq Hfil]]. simpl in Heq. subst t.
  apply filter_In in Hfil as [Hcomb Htrack]. simpl in Htrack.
  apply combine_map_fst in Hcomb. subst lo.
  unfold _track in Htrack. rewrite track_forallb in Htrack. simpl in Htrack.
  rewrite forallb_forall in Htrack. now apply Htrack.
Qed.

Lemma list_of_search_results_plain (fuel : nat) (caller : Caller)
      (terms kwargs : list string) :
  list_of_search_results (S fuel) caller terms false kwargs
  = if caller_may_clear_bypass caller
    then Some (Ok (search_with_list (split_terms terms)))
    else Some (Raise PermissionError).
Proof. destruct caller; reflexivity. Qed.

Lemma fan_out_ext (s1 s2 : list string -> option (res (list string))) :
  (forall q, s1 q = s2 q) ->
  forall members ft out, fan_out s1 members ft out = fan_out s2 members ft out.
Proof.
  intros Hext members. induction members as [|m rest IH]; intros ft out; simpl.
  - reflexivity.
  - rewrite Hext. destruct (s2 (ft ++ [m])) as [[found|e]|]; auto.
Qed.

Lemma fan_out_total (P : list string -> list string) :
  forall members ft out,
    fan_out (fun q => Some (Ok (P q))) members ft out
    = Some (Ok (out ++ concat (map P (fan_out_queries members ft)))).
Proof.
  induction members as [|m rest IH]; intros ft out; simpl.
  - now rewrite app_nil_r.
  - rewrite IH. now rewrite <- app_assoc.
Qed.

Lemma fan_out_plain (fuel : nat) (members ft : list string) :
  fan_out (fun q => list_of_search_results (S fuel)
                      From_parse_query_for_conditions q false [])
          members ft []
  = Some (Ok (concat (map plain_search (fan_out_queries members ft)))).
Proof.
  rewrite (fan_out_ext _ (fun q => Some (Ok (plain_search q)))).
  - now rewrite fan_out_total.
  - intros q. now rewrite list_of_search_results_plain.
Qed.

Lemma parse_unfold (fuel : nat) (terms kwargs : list string) :
  _parse_query_for_conditions (S fuel) terms kwargs
  = let search := fun q =>
      list_of_search_results fuel From_parse_query_for_conditions q false [] in
    match first_match _NATION_DICT terms with
    | Some (term, _value_pair) =>
        fan_out search _value_pair (list_remove term terms) []
    | None =>
        if negb (str_mem "skip_replacement_queries" kwargs)
        then match first_match _REPLACEMENT_QUERIES terms with
             | Some (term, _query_matches) =>
                 fan_out search _query_matches (list_remove term terms) []
             | None => search terms
             end
        else search terms
    end.
Proof. reflexivity. Qed.

Lemma list_of_search_results_bypass (fuel : nat) (caller : Caller)
      (terms kwargs : list string) :
  list_of_search_results (S fuel) caller terms true kwargs
  = _parse_query_for_conditions fuel (split_terms terms) kwargs.
Proof. reflexivity. Qed.

Lemma parse_returns (terms kwargs : list string) :
  exists found, forall fuel,
    _parse_query_for_conditions (2 + fuel) terms kwargs = Some (Ok found).
Proof.
  destruct (first_match _NATION_DICT terms) as [[t vp]|] eqn:Hn.
  - eexists. intros fuel. change (2 + fuel) with (S (S fuel)).
    rewrite parse_unfold, Hn. cbv zeta. apply fan_out_plain.
  - destruct (negb (str_mem "skip_replacement_queries" kwargs)) eqn:Hk.
    + destruct (first_match _REPLACEMENT_QUERIES terms) as [[t qm]|] eqn:Hr.
      * eexists. intros fuel. change (2 + fuel) with (S (S fuel)).
        rewrite parse_unfold, Hn, Hk, Hr. cbv beta zeta. apply fan_out_plain.
      * eexists. intros fuel. change (2 + fuel) with (S (S fuel)).
        rewrite parse_unfold, Hn, Hk, Hr. cbv beta zeta.
        now rewrite list_of_search_results_plain.
    + eexists. intros fuel. change (2 + fuel) with (S (S fuel)).
      rewrite parse_unfold, Hn, Hk. cbv beta zeta.
      now rewrite list_of_search_results_plain.
Qed.

Lemma list_of_search_results_bypass_returns
      (caller : Caller) (terms kwargs : list string) :
  exists found, forall fuel,
    list_of_search_results (3 + fuel) caller terms true kwargs = Some (Ok found).
Proof.
  destruct (parse_returns (split_terms terms) kwargs) as [found Hfound].
  exists found. intros fuel. change (3 + fuel) with (S (2 + fuel)).
  now rewrite list_of_search_results_bypass.
Qed.

(** C5: resolution returns for every input within call depth three,
    whatever the dictionaries hold: a call with the bypass flag cleared is
    a plain search of depth one, and the fan-out only issues such calls. *)
Theorem list_of_search_results_terminates
        (caller : Caller) (terms : list string) (bypass : bool)
        (kwargs : list string) :
  (exists outcome, forall fuel,
      list_of_search_results (3 + fuel) caller terms bypass kwargs = Some outcome)
  /\ (exists outcome, forall fuel,
      list_of_search_results (1 + fuel) caller terms false kwargs = Some outcome)
  /\ (forall fuel q,
      list_of_search_results (1 + fuel) From_parse_query_for_conditions q false []
      = Some (Ok (plain_search q))).
Proof.
  assert (Hplain : exists outcome, forall fuel,
             list_of_search_results (S fuel) caller terms false kwargs
             = Some outcome).
  { destruct caller; eexists; intros fuel; reflexivity. }
  split; [|split].
  - destruct bypass.
    + destruct (list_of_search_results_bypass_returns caller terms kwargs)
        as [found Hfound].
      exists (Ok found). exact Hfound.
    + destruct Hplain as [outcome Hplain]. exists outcome.
      intros fuel. exact (Hplain (2 + fuel)).
  - destruct Hplain as [outcome Hplain]. exists outcome.
    intros fuel. exact (Hplain fuel).
  - intros fuel q. change (1 + fuel) with (S fuel).
    now rewrite list_of_search_results_plain.
Qed.

Lemma str_mem_In (x : string) (l : list string) :
  str_mem x l = true <-> In x l.
Proof.
  unfold str_mem. rewrite existsb_exists. split.
  - intros [y [Hy Heq]]. apply String.eqb_eq in Heq. now subst.
  - intros H. exists x. split; [assumption | apply String.eqb_refl].
Qed.

Lemma first_match_sound (groups : list (list string)) (terms : list string)
      (t : string) (G : list string) :
  first_match groups terms = Some (t, G) ->
  In t terms /\ In G groups /\ In t G.
Proof.
  induction terms as [|x rest IH]; simpl; [discriminate|].
  destruct (find (fun group => str_mem x group) groups) as [g|] eqn:Hfind.
  - intros H. inversion H; subst. apply find_some in Hfind as [Hg Hx].
    apply str_mem_In in Hx. auto.
  - intros H. destruct (IH H) as [? [? ?]]. auto.
Qed.

Lemma list_remove_appended (m : string) (ft : list string) :
  Permutation (list_remove m (ft ++ [m])) ft.
Proof.
  induction ft as [|y ft IH]; simpl.
  - now rewrite String.eqb_refl.
  - destruct (String.eqb y m) eqn:Hy.
    + apply String.eqb_eq in Hy. subst y.
      apply Permutation_sym, Permutation_cons_append.
    + now apply perm_skip.
Qed.

Lemma fan_out_queries_members (base : list string) :
  forall members ft,
    Permutation ft base ->
    Forall2 (fun q g => Permutation q (base ++ [g]))
            (fan_out_queries members ft) members.
Proof.
  induction members as [|m rest IH]; intros ft Hft; simpl; constructor.
  - now apply Permutation_app_tail.
  - apply IH. eapply Permutation_trans; [apply list_remove_appended | exact Hft].
Qed.

(** C4, amended: when no keyword argument skips the replacements, no term
    is a nation alias, and [t] is the first term found in a synonym group
    [G], resolution issues one plain search per member of [G], each on the
    other terms together with that member, and returns their results
    joined. *)
Theorem replacement_fan_out_covers_group
        (fuel : nat) (caller : Caller) (terms kwargs : list string)
        (t : string) (G : list string) :
  first_match _NATION_DICT (split_terms terms) = None ->
  str_mem "skip_replacement_queries" kwargs = false ->
  first_match _REPLACEMENT_QUERIES (split_terms terms) = Some (t, G) ->
  In G _REPLACEMENT_QUERIES /\ In t G
  /\ exists queries,
      Forall2 (fun q g =>
                 Permutation q (list_remove t (split_terms terms) ++ [g]))
              queries G
      /\ list_of_search_results (3 + fuel) caller terms true kwargs
         = Some (Ok (concat (map plain_search queries))).
Proof.
  intros Hnation Hskip Hgroup.
  destruct (first_match_sound _ _ _ _ Hgroup) as [_ [HG Ht]].
  split; [exact HG | split; [exact Ht|]].
  exists (fan_out_queries G (list_remove t (split_terms terms))). split.
  - now apply fan_out_queries_members.
  - change (3 + fuel) with (S (S (S fuel))).
    rewrite list_of_search_results_bypass, parse_unfold, Hnation, Hskip, Hgroup.
    cbv beta zeta. simpl negb. cbv iota. apply fan_out_plain.
Qed.

Lemma hint_loop_first (q : string) (before : list string) (found : string)
      (after : list string) :
  (forall c, In c before ->
             PyStr.str_in q c = false /\ PyStr.lower q <> PyStr.lower c) ->
  PyStr.str_in q found = true \/ PyStr.lower q = PyStr.lower found ->
  hint_loop q (before ++ found :: after) = Some found.
Proof.
  intros Hbefore Hfound. induction before as [|c before IH]; simpl.
  - destruct (PyStr.str_in q found); [reflexivity|].
    destruct Hfound as [H|H]; [discriminate|].
    apply String.eqb_eq in H. now rewrite H.
  - destruct (Hbefore c (or_introl eq_refl)) as [Hsub Hneq].
    rewrite Hsub. apply String.eqb_neq in Hneq. rewrite Hneq.
    apply IH. intros c' Hc'. apply Hbefore. now right.
Qed.

(** C2, amended: with a non-empty hint and no special-cased search term,
    the resolved page is the first candidate that holds the hint as a
    substring or equals it case-insensitively. *)
Theorem process_page_takes_first_hinted_candidate
        {T : Type} (fuel : nat) (search_terms : list string)
        (specific_query : string) (processing_function : page_arg -> res T) :
  supported_special_case search_terms = None ->
  specific_query <> "" ->
  exists candidates,
    list_of_search_results (3 + fuel) External search_terms true
                           ["skip_replacement_queries"] = Some (Ok candidates)
    /\ forall before found after,
        candidates = before ++ found :: after ->
        (forall c, In c before ->
                   PyStr.str_in specific_query c = false
                   /\ PyStr.lower specific_query <> PyStr.lower c) ->
        PyStr.str_in specific_query found = true
        \/ PyStr.lower specific_query = PyStr.lower found ->
        process_page (3 + fuel) search_terms (Some specific_query)
                     (Some processing_function)
        = Some (processing_function (OneTitle found)).
Proof.
  intros Hspecial Hquery.
  destruct (list_of_search_results_bypass_returns
              External search_terms ["skip_replacement_queries"])
    as [candidates Hcand].
  exists candidates. split; [apply Hcand|].
  intros before found after Hsplit Hbefore Hfound.
  unfold process_page. rewrite Hspecial, Hcand.
  destruct specific_query as [|c q]; [congruence|].
  rewrite Hsplit, (hint_loop_first _ _ _ _ Hbefore Hfound). reflexivity.
Qed.

(** ** Properties of page retrieval and of the loader *)

(** C6: a term that lands on a disambiguation page makes
    [parse_page_information] fail with [ValueError]; the function takes no
    hint and returns no page in that case. *)
Theorem parse_page_information_rejects_disambiguation (term : string) :
  wk_page term = Raise DisambiguationError ->
  parse_page_information term = Raise ValueError.
Proof. intros H. unfold parse_page_information. now rewrite H. Qed.

(** C7, amended: with a non-empty save location at whose parent path
    nothing exists, constructing the loader raises [NotADirectoryError],
    and so does constructing and using it; the files and the record of
    producer calls and writes are as before. *)
Theorem init_rejects_missing_directory
        (location : string) (overwrite : bool) (w : World Env) :
  location <> "" ->
  path_exists w (dirname location) = false ->
  __init__ location overwrite w = (Raise NotADirectoryError, w)
  /\ construct_and_use location overwrite w = (Raise NotADirectoryError, w).
Proof.
  intros Hne Hdir.
  assert (Hinit : __init__ location overwrite w = (Raise NotADirectoryError, w)).
  { unfold __init__. apply String.eqb_neq in Hne. now rewrite Hne, Hdir. }
  split; [exact Hinit|].
  unfold construct_and_use. now rewrite Hinit.
Qed.

Lemma produce_count_app (w : World Env) (fs : gmap string string)
      (ds : gset string) (e : Env) (ev : Event) :
  produce_count (mkWorld fs ds e (trace w ++ [ev]))
  = produce_count w + match ev with EvProduce => 1 | _ => 0 end.
Proof.
  unfold produce_count. simpl. rewrite filter_app, length_app.
  destruct ev; reflexivity.
Qed.

Lemma write_file_count (p content : string) (w : World Env) :
  produce_count (snd (write_file p content w)) = produce_count w.
Proof.
  unfold write_file.
  repeat match goal with
         | |- context [if ?b then _ else _] => destruct b
         end; simpl; try reflexivity.
  rewrite produce_count_app. lia.
Qed.

Lemma read_file_count (p : string) (w : World Env) :
  produce_count (snd (read_file p w)) = produce_count w.
Proof.
  unfold read_file. destruct (files w !! p) as [content|].
  - destruct (pickle_loads content); simpl; rewrite produce_count_app; lia.
  - destruct (bool_decide (p ∈ dirs w)); reflexivity.
Qed.

Lemma produce_counts_one (w : World Env) :
  produce_count (snd (produce w)) = S (produce_count w).
Proof.
  unfold produce. destruct (process_function (env w)) as [r e'].
  simpl. rewrite produce_count_app. lia.
Qed.

Lemma exit_count (self : Loader Data) (w : World Env) :
  produce_count (snd (__exit__ self w)) = produce_count w.
Proof.
  unfold __exit__.
  repeat match goal with
         | |- context [if ?b then _ else _] => destruct b
         end; try apply write_file_count; reflexivity.
Qed.

Lemma enter_loaded (self : Loader Data) (w : World Env) :
  _is_loaded self = true -> __enter__ self w = (Ok (data self), self, w).
Proof. intros H. unfold __enter__, _load_or_parse. now rewrite H. Qed.

Lemma produce_raises (w : World Env) (e : exn) (w' : World Env) :
  produce w = (Raise e, w') -> fst (process_function (env w)) = Raise e.
Proof.
  unfold produce. destruct (process_function (env w)) as [r e'].
  intros H. inversion H. reflexivity.
Qed.

(** One entry either leaves the count alone or adds one; when it adds one,
    the loader comes back loaded unless the producer raised. *)
Lemma enter_count (self : Loader Data) (w : World Env) :
  produce_count (snd (__enter__ self w)) = produce_count w
  \/ (produce_count (snd (__enter__ self w)) = S (produce_count w)
      /\ (_is_loaded (snd (fst (__enter__ self w))) = true
          \/ exists e, fst (process_function (env w)) = Raise e)).
Proof.
  unfold __enter__, _load_or_parse.
  destruct (_is_loaded self); [now left|].
  destruct (overwrite_data self).
  - right. pose proof (produce_counts_one w) as Hp.
    destruct (produce w) as [[d|e] w'] eqn:Hprod; simpl in *; split; auto.
    right. exists e. eapply produce_raises; eassumption.
  - destruct (path_exists w (save_location self)).
    + left. pose proof (read_file_count (save_location self) w) as Hr.
      destruct (read_file (save_location self) w) as [[d|e] w']; exact Hr.
    + right. pose proof (produce_counts_one w) as Hp.
      destruct (produce w) as [[d|e] w'] eqn:Hprod; simpl in *; split; auto.
      right. exists e. eapply produce_raises; eassumption.
Qed.

(** An entry that returns leaves the loader loaded, holding what it
    returned. *)
Lemma enter_returns_loaded (self self' : Loader Data) (w w' : World Env)
      (d : Data) :
  __enter__ self w = (Ok d, self', w') ->
  _is_loaded self' = true /\ data self' = d.
Proof.
  unfold __enter__, _load_or_parse.
  destruct (_is_loaded self) eqn:Hl.
  - intros H. inversion H; subst. auto.
  - destruct (overwrite_data self).
    + destruct (produce w) as [[d0|e] w0]; intros H; inversion H; subst; auto.
    + destruct (path_exists w (save_location self)).
      * destruct (read_file (save_location self) w) as [[d0|e] w0];
          intros H; inversion H; subst; auto.
      * destruct (produce w) as [[d0|e] w0]; intros H; inversion H; subst; auto.
Qed.

Lemma enter_stays_loaded (self : Loader Data) (w : World Env) :
  _is_loaded self = true ->
  _is_loaded (snd (fst (__enter__ self w))) = true.
Proof. intros H. now rewrite (enter_loaded _ _ H). Qed.

Lemma scoped_use_parts (self : Loader Data) (w : World Env) :
  snd (fst (scoped_use self w)) = snd (fst (__enter__ self w))
  /\ produce_count (snd (scoped_use self w))
     = produce_count (snd (__enter__ self w)).
Proof.
  unfold scoped_use. destruct (__enter__ self w) as [[[d|e] self'] w']; simpl.
  - pose proof (exit_count self' w') as He.
    destruct (__exit__ self' w') as [[u|e] w'']; simpl in *; auto.
  - auto.
Qed.

Lemma scoped_uses_step (n : nat) (self : Loader Data) (w : World Env) :
  scoped_uses (S n) self w
  = scoped_uses n (snd (fst (scoped_use self w))) (snd (scoped_use self w)).
Proof. simpl. destruct (scoped_use self w) as [[r self'] w']. reflexivity. Qed.

Lemma scoped_uses_loaded (n : nat) :
  forall (self : Loader Data) (w : World Env),
    _is_loaded self = true ->
    produce_count (snd (scoped_uses n self w)) = produce_count w.
Proof.
  induction n as [|n IH]; intros self w Hl; [reflexivity|].
  rewrite scoped_uses_step.
  destruct (scoped_use_parts self w) as [Hself Hcount].
  rewrite IH.
  - rewrite Hcount, (enter_loaded _ _ Hl). reflexivity.
  - rewrite Hself. now apply enter_stays_loaded.
Qed.

Lemma scoped_uses_count (n : nat) :
  (forall e, exists d e', process_function e = (Ok d, e')) ->
  forall (self : Loader Data) (w : World Env),
    produce_count (snd (scoped_uses n self w)) <= produce_count w + 1.
Proof.
  intros Hreturns.
  induction n as [|n IH]; intros self w; [simpl; lia|].
  rewrite scoped_uses_step.
  destruct (scoped_use_parts self w) as [Hself Hcount].
  destruct (enter_count self w) as [Hsame | [Hone [Hloaded | [e He]]]].
  - specialize (IH (snd (fst (scoped_use self w))) (snd (scoped_use self w))).
    rewrite Hcount, Hsame in IH. exact IH.
  - rewrite scoped_uses_loaded; [|now rewrite Hself].
    rewrite Hcount, Hone. lia.
  - destruct (Hreturns (env w)) as (d & e' & Hd).
    rewrite Hd in He. discriminate.
Qed.

Lemma path_exists_file (w : World Env) (p content : string) :
  String.eqb p "" = false ->
  files w !! p = Some content ->
  path_exists w p = true.
Proof.
  intros Hne Hfile. unfold path_exists. rewrite Hne. simpl.
  apply orb_true_iff. right. apply bool_decide_eq_true_2.
  rewrite Hfile. eauto.
Qed.

(** C1, amended: a loader that does not overwrite and finds its file
    returns the stored result without a producer call; an entry that
    returns leaves
    the loader loaded with what it returned, a loaded loader returns its
    data and leaves the world untouched, and no later scoped use of it
    calls the producer; a producer that returns whenever it is called runs
    at most once over any number of scoped uses. *)
Theorem loader_loads_stored_result_and_produces_at_most_once :
  (forall (self : Loader Data) (w : World Env) (content : string) (d : Data),
      _is_loaded self = false ->
      overwrite_data self = false ->
      save_location self <> "" ->
      files w !! save_location self = Some content ->
      pickle_loads content = Some d ->
      exists w',
        __enter__ self w = (Ok d, set_loaded self d, w')
        /\ produce_count w' = produce_count w
        /\ files w' = files w)
  /\ (forall (self : Loader Data) (w : World Env),
      _is_loaded self = true ->
      __enter__ self w = (Ok (data self), self, w))
  /\ (forall (self self' : Loader Data) (w w' : World Env) (d : Data),
      __enter__ self w = (Ok d, self', w') ->
      _is_loaded self' = true
      /\ data self' = d
      /\ forall (n : nat) (later : World Env),
          produce_count (snd (scoped_uses n self' later)) = produce_count later)
  /\ ((forall e, exists d e', process_function e = (Ok d, e')) ->
      forall (n : nat) (self : Loader Data) (w : World Env),
        produce_count (snd (scoped_uses n self w)) <= produce_count w + 1).
Proof.
  split; [|split; [|split]]; cycle 2.
  - intros self self' w w' d Henter.
    destruct (enter_returns_loaded _ _ _ _ _ Henter) as [Hl Hd].
    split; [exact Hl|]. split; [exact Hd|].
    intros n later. now apply scoped_uses_loaded.
  - intros Hreturns n self w. now apply scoped_uses_count.
  - intros self w content d Hl Ho Hne Hfile Hload.
    unfold __enter__, _load_or_parse. rewrite Hl, Ho.
    assert (Hex : path_exists w (save_location self) = true).
    { apply String.eqb_neq in Hne. eapply path_exists_file; eassumption. }
    rewrite Hex. unfold read_file. rewrite Hfile, Hload.
    eexists. split; [reflexivity|]. split; [|reflexivity].
    rewrite produce_count_app. lia.
  - apply enter_loaded.
Qed.

(** C8: for a loader built on an existing directory with no file yet at
    its location, one scoped use in which the producer returns stores the
    producer's output, and a later loader on the same location reads back
    exactly that output without a producer call. *)
Theorem cache_round_trip
        (location : string) (overwrite : bool) (w : World Env)
        (self : Loader Data) :
  (forall d, pickle_loads (pickle_dumps d) = Some d) ->
  __init__ location overwrite w = (Ok self, w) ->
  dirname location ∈ dirs w ->
  path_exists w location = false ->
  forall produced : Data,
  fst (process_function (env w)) = Ok produced ->
  exists w1 later w2,
    scoped_use self w = (Ok produced, set_loaded self produced, w1)
    /\ files w1 !! location = Some (pickle_dumps produced)
    /\ __init__ location false w1 = (Ok later, w1)
    /\ __enter__ later w1 = (Ok produced, set_loaded later produced, w2)
    /\ produce_count w2 = produce_count w1.
Proof.
  intros Hpickle Hinit Hdir Hfresh produced Hproduced.
  unfold __init__ in Hinit.
  destruct (String.eqb location "") eqn:Hne; [discriminate|].
  destruct (negb (path_exists w (dirname location))) eqn:Hparent; [discriminate|].
  inversion Hinit; subst self; clear Hinit.
  apply negb_false_iff in Hparent.
  assert (Hnotdir : bool_decide (location ∈ dirs w) = false).
  { unfold path_exists in Hfresh. rewrite Hne in Hfresh. simpl in Hfresh.
    now apply orb_false_iff in Hfresh as [? _]. }
  assert (Hnone : files w !! location = None).
  { unfold path_exists in Hfresh. rewrite Hne in Hfresh. simpl in Hfresh.
    apply orb_false_iff in Hfresh as [_ Hf].
    apply bool_decide_eq_false in Hf.
    destruct (files w !! location) eqn:E; [|reflexivity].
    exfalso. apply Hf. eauto. }
  (* the world after the producer ran *)
  destruct (process_function (env w)) as [r e'] eqn:Hprod.
  simpl in Hproduced. subst r. rename produced into d.
  set (wp := mkWorld (files w) (dirs w) e' (trace w ++ [EvProduce])).
  set (w1 := mkWorld (<[location := pickle_dumps d]> (files w)) (dirs w) e'
                     (trace wp ++ [EvWrite location])).
  assert (Henter : __enter__ (mkLoader location overwrite false py_None) w
                   = (Ok d, mkLoader location overwrite true d, wp)).
  { unfold __enter__, _load_or_parse, produce. simpl.
    rewrite Hfresh, Hprod. destruct overwrite; reflexivity. }
  assert (Hexit : __exit__ (mkLoader location overwrite true d) wp = (Ok tt, w1)).
  { unfold __exit__. simpl.
    assert (Hfp : path_exists wp location = false) by exact Hfresh.
    rewrite Hfp. simpl. unfold write_file. rewrite Hne. simpl.
    rewrite Hnotdir. rewrite (bool_decide_eq_true_2 _ Hdir).
    rewrite orb_true_r. reflexivity. }
  assert (Hstored : files w1 !! location = Some (pickle_dumps d)).
  { simpl. apply lookup_insert_eq. }
  assert (Hexists : path_exists w1 location = true).
  { eapply path_exists_file; eassumption. }
  exists w1, (mkLoader location false false py_None).
  eexists. split; [|split; [|split; [|split]]].
  - unfold scoped_use. rewrite Henter, Hexit. reflexivity.
  - exact Hstored.
  - unfold __init__. rewrite Hne.
    assert (Hp1 : path_exists w1 (dirname location) = true).
    { unfold path_exists in *. simpl.
      destruct (String.eqb (dirname location) ""); [discriminate|]. simpl.
      now rewrite (bool_decide_eq_true_2 _ Hdir). }
    rewrite Hp1. reflexivity.
  - unfold __enter__, _load_or_parse. simpl. rewrite Hexists.
    unfold read_file. rewrite Hstored, Hpickle. reflexivity.
  - rewrite produce_count_app. lia.
Qed.

(** ** Properties of the table extractors *)

Lemma cells_loop_cons (indx : nat) (value : string) (rest : list string)
      (st : cell_state) :
  cells_loop indx (value :: rest) st
  = match cell_step indx value st with
    | Next st' => cells_loop (S indx) rest st'
    | Break st' => Ok st'
    | Fail e => Raise e
    end.
Proof. reflexivity. Qed.

Lemma rows_loop_cons (data_values : list string) (rest : list (list string))
      (nations dates : list string) :
  rows_loop (data_values :: rest) nations dates
  = match cells_loop 0 data_values (mkCellState None nations dates) with
    | Ok st => rows_loop rest (_nation_tracker st) (_date_tracker st)
    | Raise e => Raise e
    end.
Proof. reflexivity. Qed.

Lemma years_loop_cons (nation date : string) (rest : list (string * string))
      (founding_dates : list (string * string)) :
  years_loop ((nation, date) :: rest) founding_dates
  = if str_mem nation ["Czechia"; "Palestine"]
    then years_loop rest founding_dates
    else match PyStr.findall_d4 date with
         | [] => Raise IndexError
         | _founding_date :: _ =>
             years_loop rest (dict_set founding_dates nation _founding_date)
         end.
Proof. reflexivity. Qed.


Lemma orders_cells_cons (indx : nat) (item : string) (rest : list string)
      (_tracker_list : list tracked) :
  orders_cells indx (item :: rest) _tracker_list
  = let text := PyStr.strip item in
    if str_mem text ["Sources:"]
    then orders_cells (S indx) rest _tracker_list
    else
      let with_name :=
        if indx =? 1 then _tracker_list ++ [TName text] else _tracker_list in
      let with_count :=
        if indx =? 3
        then match py_int (PyStr.remove_char "," text) with
             | Some n => Ok (with_name ++ [TCount n])
             | None => Raise ValueError
             end
        else Ok with_name in
      match with_count with
      | Raise e => Raise e
      | Ok tracked_so_far =>
          if indx =? 5
          then match py_float (PyStr.remove_char "," text) with
               | Some x => Ok (tracked_so_far ++ [TAverage x])
               | None => Raise ValueError
               end
          else orders_cells (S indx) rest tracked_so_far
      end.
Proof. reflexivity. Qed.


Lemma orders_rows_app (pre post : list (list string))
      (acc : list (string * (Z * F))) :
  orders_rows (pre ++ post) acc
  = match orders_rows pre acc with
    | Ok acc' => orders_rows post acc'
    | Raise e => Raise e
    end.
Proof.
  revert acc. induction pre as [|row pre IH]; intros acc; simpl; [reflexivity|].
  destruct (orders_row row acc); [apply IH | reflexivity].
Qed.










Lemma orders_cells_sentinel (cells : list string) :
  Forall (fun c => PyStr.strip c = "Sources:") cells ->
  forall indx _tracker_list,
    orders_cells indx cells _tracker_list = Ok _tracker_list.
Proof.
  induction 1 as [|c cells Hc _ IH]; intros indx tl; [reflexivity|].
  rewrite orders_cells_cons. cbv zeta. rewrite Hc. apply IH.
Qed.

(** C9: on the three rows of the scenario the founding-date extraction
    gives exactly France with 1958 and Japan with 1947, the same as
    without the sentinel row; and in the executive orders a row whose
    cells all read as the sentinel leaves the result as it was. *)
Theorem scenario_rows_give_two_records :
  is_valid_country "France" = true ->
  is_valid_country "Japan" = true ->
  is_valid_country "Sources:" = false ->
  founding_dates_of_rows sample_rows
  = Ok [("France", "1958"); ("Japan", "1947")]
  /\ founding_dates_of_rows
       [ ["France"; "1958"]; ["Japan"; "1947 (current constitution)"] ]
     = founding_dates_of_rows sample_rows
  /\ (forall (sentinel : list string) (pre post : list (list string))
             (acc : list (string * (Z * F))),
        Forall (fun c => PyStr.strip c = "Sources:") sentinel ->
        orders_rows (pre ++ sentinel :: post) acc = orders_rows (pre ++ post) acc).
Proof.
  intros HF HJ HS.
  assert (E1 : forall ns ds,
             cells_loop 0 ["France"; "1958"] (mkCellState None ns ds)
             = if str_mem "France" ns then Ok (mkCellState None ns ds)
               else Ok (mkCellState (Some "France") (ns ++ ["France"])
                                    (ds ++ ["1958"]))).
  { intros ns ds. rewrite cells_loop_cons.
    cbv -[is_valid_country str_mem cells_loop app]. rewrite HF.
    destruct (str_mem "France" ns); reflexivity. }
  assert (E2 : forall ns ds,
             cells_loop 0 ["Sources:"; ""] (mkCellState None ns ds)
             = Ok (mkCellState None ns ds)).
  { intros ns ds. rewrite cells_loop_cons.
    cbv -[is_valid_country str_mem cells_loop app]. rewrite HS. reflexivity. }
  assert (E3 : forall ns ds,
             cells_loop 0 ["Japan"; "1947 (current constitution)"]
                        (mkCellState None ns ds)
             = if str_mem "Japan" ns then Ok (mkCellState None ns ds)
               else Ok (mkCellState (Some "Japan") (ns ++ ["Japan"])
                          (ds ++ ["1947 (current constitution)"]))).
  { intros ns ds. rewrite cells_loop_cons.
    cbv -[is_valid_country str_mem cells_loop app]. rewrite HJ.
    destruct (str_mem "Japan" ns); reflexivity. }
  assert (Hscenario : founding_dates_of_rows sample_rows
                      = Ok [("France", "1958"); ("Japan", "1947")]).
  { unfold founding_dates_of_rows, sample_rows.
    rewrite rows_loop_cons, E1.
    change (str_mem "France" []) with false. cbv iota.
    cbn [_nation_tracker _date_tracker app].
    rewrite rows_loop_cons, E2. cbv iota.
    cbn [_nation_tracker _date_tracker].
    rewrite rows_loop_cons, E3.
    change (str_mem "Japan" ["France"]) with false. reflexivity. }
  split; [exact Hscenario | split].
  - rewrite Hscenario. unfold founding_dates_of_rows.
    rewrite rows_loop_cons, E1.
    change (str_mem "France" []) with false. cbv iota.
    cbn [_nation_tracker _date_tracker app].
    rewrite rows_loop_cons, E3.
    change (str_mem "Japan" ["France"]) with false. reflexivity.
  - intros sentinel pre post acc Hs.
    rewrite !orders_rows_app. destruct (orders_rows pre acc); [|reflexivity].
    simpl. unfold orders_row. rewrite (orders_cells_sentinel _ Hs). reflexivity.
Qed.

(** ** Further properties of the query layer *)

Lemma merge_fold_In (output_thresh : nat) (x : string) :
  forall terms acc,
    In x (fold_left (fun output_values term =>
                       output_values ++ wk_search term output_thresh) terms acc)
    <-> In x acc \/ exists term, In term terms /\ In x (wk_search term output_thresh).
Proof.
  induction terms as [|t terms IH]; intros acc; simpl.
  - split; [auto | intros [H | [t [[] _]]]; exact H].
  - rewrite IH, in_app_iff. split.
    + intros [[H|H] | [t' [Ht' Hx]]]; eauto.
    + intros [H | [t' [[Ht'|Ht'] Hx]]]; subst; eauto.
Qed.

Lemma merge_query_results_In (terms : list string) (output_thresh : nat)
      (x : string) :
  In x (_merge_query_results terms output_thresh)
  <-> exists term, In term terms /\ In x (wk_search term output_thresh).
Proof.
  unfold _merge_query_results. rewrite merge_fold_In. split.
  - intros [[] | H]; exact H.
  - auto.
Qed.

Lemma combine_lower_In (l : list string) (t : string) :
  In t l -> In (PyStr.lower t, t) (combine (map PyStr.lower l) l).
Proof.
  induction l as [|x l IH]; simpl; [intros [] |].
  intros [H|H]; [subst; now left | right; auto].
Qed.

Lemma search_multiple_words_shape (words : list string) (output_thresh : nat) :
  2 <= length words ->
  search_multiple_words words output_thresh
  = map snd (filter (fun p => _track words (fst p))
       (combine (map PyStr.lower (_merge_query_results words output_thresh))
                (_merge_query_results words output_thresh))).
Proof.
  intros Hlen.
  destruct words as [|w1 [|w2 ws]]; simpl in Hlen; try lia; reflexivity.
Qed.

Lemma search_multiple_words_sound
      (words : list string) (output_thresh : nat) (title : string) :
  2 <= length words ->
  In title (search_multiple_words words output_thresh) ->
  (exists word, In word words /\ In title (wk_search word output_thresh))
  /\ (forall word, In word words ->
        PyStr.str_in (PyStr.lower word) (PyStr.lower title) = true).
Proof.
  intros Hlen Hin. rewrite (search_multiple_words_shape _ _ Hlen) in Hin.
  apply in_map_iff in Hin as [[lo t] [Heq Hfil]].
  simpl in Heq. subst t. apply filter_In in Hfil as [Hcomb Htrack].
  simpl in Htrack. pose proof (combine_map_fst _ _ _ _ Hcomb) as Hlo. subst lo.
  split.
  - apply merge_query_results_In. eapply in_combine_r. exact Hcomb.
  - unfold _track in Htrack. rewrite track_forallb in Htrack.
    simpl in Htrack. rewrite forallb_forall in Htrack. exact Htrack.
Qed.

(** X1: with two or more words the result holds exactly the titles that some
    word's search returned and that hold every word, case-insensitively. *)
Theorem search_multiple_words_membership
        (words : list string) (output_thresh : nat) (title : string) :
  2 <= length words ->
  (In title (search_multiple_words words output_thresh)
   <-> (exists word, In word words /\ In title (wk_search word output_thresh))
       /\ (forall word, In word words ->
             PyStr.str_in (PyStr.lower word) (PyStr.lower title) = true)).
Proof.
  intros Hlen. split; [now apply search_multiple_words_sound|].
  intros [Hfound Hall]. rewrite (search_multiple_words_shape _ _ Hlen).
  apply in_map_iff.
  exists (PyStr.lower title, title). split; [reflexivity|].
  apply filter_In. split.
  - apply combine_lower_In. now apply merge_query_results_In.
  - simpl. unfold _track. rewrite track_forallb. simpl.
    rewrite forallb_forall. exact Hall.
Qed.

(** X3: when a term is a nation alias, resolution issues one plain search per
    alias of the first such nation, on the other terms together with that
    alias, and returns their results joined; the keyword arguments and the
    synonym groups play no part. *)
Theorem nation_fan_out_covers_aliases
        (fuel : nat) (caller : Caller) (terms kwargs : list string)
        (t : string) (aliases : list string) :
  first_match _NATION_DICT (split_terms terms) = Some (t, aliases) ->
  In aliases _NATION_DICT /\ In t aliases
  /\ exists queries,
      Forall2 (fun q alias =>
                 Permutation q (list_remove t (split_terms terms) ++ [alias]))
              queries aliases
      /\ list_of_search_results (3 + fuel) caller terms true kwargs
         = Some (Ok (concat (map plain_search queries))).
Proof.
  intros Hnation.
  destruct (first_match_sound _ _ _ _ Hnation) as [_ [Hd Ht]].
  split; [exact Hd | split; [exact Ht|]].
  exists (fan_out_queries aliases (list_remove t (split_terms terms))). split.
  - now apply fan_out_queries_members.
  - change (3 + fuel) with (S (S (S fuel))).
    rewrite list_of_search_results_bypass, parse_unfold, Hnation.
    cbv beta zeta. apply fan_out_plain.
Qed.

Lemma str_in_char (c : ascii) (w : string) :
  PyStr.str_in (String c EmptyString) w = has_char c w.
Proof.
  induction w as [|a w IH]; [reflexivity|].
  simpl. rewrite IH. destruct w; now rewrite andb_true_r.
Qed.

Lemma split_on_words_lack_sep (c : ascii) :
  forall s w, In w (PyStr.split_on c s) -> has_char c w = false.
Proof.
  induction s as [|a s IH]; intros w; simpl.
  - intros [H|[]]. now subst.
  - destruct (Ascii.eqb a c) eqn:Hac.
    + intros [H|H]; [now subst | auto].
    + destruct (PyStr.split_on c s) as [|w0 ws] eqn:Hs.
      * intros [H|[]]. subst. simpl. rewrite Ascii.eqb_sym, Hac. reflexivity.
      * intros [H|H].
        -- subst. simpl. rewrite Ascii.eqb_sym, Hac. simpl.
           apply IH. now left.
        -- apply IH. now right.
Qed.

Lemma split_terms_fold (l : list string) :
  forall acc,
    fold_left (fun terms term =>
                 if PyStr.str_in " " term
                    && negb (str_mem term _ALLOWED_SPACED_QUERIES)
                 then terms ++ PyStr.split_on " " term
                 else terms ++ [term]) l acc
    = acc ++ flat_map split_term l.
Proof.
  induction l as [|t l IH]; intros acc.
  - simpl. now rewrite app_nil_r.
  - cbn [fold_left flat_map]. rewrite IH. unfold split_term at 2.
    destruct (PyStr.str_in " " t && negb (str_mem t _ALLOWED_SPACED_QUERIES));
      now rewrite <- app_assoc.
Qed.

Lemma split_terms_flat_map (l : list string) :
  split_terms l = flat_map split_term l.
Proof. unfold split_terms. now rewrite split_terms_fold. Qed.

Lemma split_term_settled (t w : string) :
  In w (split_term t) ->
  PyStr.str_in " " w && negb (str_mem w _ALLOWED_SPACED_QUERIES) = false.
Proof.
  unfold split_term.
  destruct (PyStr.str_in " " t && negb (str_mem t _ALLOWED_SPACED_QUERIES))
    eqn:Hsplit.
  - intros Hw. apply split_on_words_lack_sep in Hw.
    now rewrite str_in_char, Hw.
  - intros [H|[]]. now subst.
Qed.

Lemma flat_map_settled (l : list string) :
  (forall w, In w l ->
     PyStr.str_in " " w && negb (str_mem w _ALLOWED_SPACED_QUERIES) = false) ->
  flat_map split_term l = l.
Proof.
  induction l as [|w l IH]; intros Hall; simpl; [reflexivity|].
  unfold split_term at 1. rewrite (Hall w (or_introl eq_refl)). simpl.
  f_equal. apply IH. intros w' Hw'. apply Hall. now right.
Qed.

(** X4: after the first loop of [list_of_search_results] every term is free
    of spaces or is a registered spaced query, and running the loop again on
    its own output changes nothing. *)
Theorem split_terms_idempotent (terms : list string) :
  (forall w, In w (split_terms terms) ->
     PyStr.str_in " " w = false \/ In w _ALLOWED_SPACED_QUERIES)
  /\ split_terms (split_terms terms) = split_terms terms.
Proof.
  assert (Hsettled : forall w, In w (split_terms terms) ->
            PyStr.str_in " " w && negb (str_mem w _ALLOWED_SPACED_QUERIES)
            = false).
  { intros w Hw. rewrite split_terms_flat_map in Hw.
    apply in_flat_map in Hw as [t [_ Hwt]]. eapply split_term_settled; eauto. }
  split.
  - intros w Hw. specialize (Hsettled w Hw).
    apply andb_false_iff in Hsettled as [H|H]; [now left | right].
    apply negb_false_iff in H. now apply str_mem_In.
  - rewrite (split_terms_flat_map (split_terms terms)).
    now apply flat_map_settled.
Qed.

Lemma plain_search_of_split (terms : list string) :
  plain_search (split_terms terms) = search_with_list (split_terms terms).
Proof.
  unfold plain_search.
  assert (H : split_terms (split_terms terms) = split_terms terms).
  { rewrite (split_terms_flat_map (split_terms terms)).
    apply flat_map_settled. intros w Hw. rewrite split_terms_flat_map in Hw.
    apply in_flat_map in Hw as [t [_ Hwt]]. eapply split_term_settled; eauto. }
  now rewrite H.
Qed.

(** X5: without a nation alias among the terms, and with the replacements
    skipped or no term in a synonym group, resolution is one search: the
    split terms and the word list, filtered for uniqueness. *)
Theorem resolution_without_fan_out
        (fuel : nat) (caller : Caller) (terms kwargs : list string) :
  first_match _NATION_DICT (split_terms terms) = None ->
  str_mem "skip_replacement_queries" kwargs = true
  \/ first_match _REPLACEMENT_QUERIES (split_terms terms) = None ->
  list_of_search_results (3 + fuel) caller terms true kwargs
  = Some (Ok (search_with_list (split_terms terms))).
Proof.
  intros Hnation Hplain.
  change (3 + fuel) with (S (S (S fuel))).
  rewrite list_of_search_results_bypass, parse_unfold, Hnation.
  cbv beta zeta.
  destruct (str_mem "skip_replacement_queries" kwargs) eqn:Hskip; simpl negb;
    cbv iota.
  - rewrite list_of_search_results_plain. cbn [caller_may_clear_bypass].
    do 2 f_equal. exact (plain_search_of_split terms).
  - destruct Hplain as [H|H]; [discriminate|]. rewrite H.
    rewrite list_of_search_results_plain. cbn [caller_may_clear_bypass].
    do 2 f_equal. exact (plain_search_of_split terms).
Qed.

Lemma split_on_nonempty (c : ascii) (s : string) : PyStr.split_on c s <> [].
Proof.
  destruct s as [|a s]; simpl; [discriminate|].
  destruct (Ascii.eqb a c); [discriminate|].
  destruct (PyStr.split_on c s); discriminate.
Qed.

Lemma split_terms_nonempty (l : list string) :
  l <> [] -> split_terms l <> [].
Proof.
  rewrite split_terms_flat_map. destruct l as [|t l]; [congruence|].
  intros _ H. simpl in H. apply app_eq_nil in H as [H _].
  unfold split_term in H.
  destruct (PyStr.str_in " " t && negb (str_mem t _ALLOWED_SPACED_QUERIES));
    [now apply split_on_nonempty in H | discriminate].
Qed.

Lemma search_with_list_holds_list (ts : list string) :
  (forall l x, In x (list_of_set l) -> In x l) ->
  ts <> [] ->
  forall title, In title (search_with_list ts) ->
                PyStr.str_in "list" (PyStr.lower title) = true.
Proof.
  intros Hset Hne title Hin.
  assert (Hshape : search_with_list ts
                   = list_of_set (search_multiple_words
                                    (map PyStr.lower ts ++ ["list"]) 100)).
  { destruct ts as [|t1 [|t2 r]]; [congruence | reflexivity | reflexivity]. }
  rewrite Hshape in Hin. apply Hset in Hin.
  apply search_multiple_words_sound in Hin as [_ Hall].
  - apply (Hall "list"). apply in_or_app. right. now left.
  - rewrite length_app, length_map. destruct ts; [congruence | simpl; lia].
Qed.

Lemma fan_out_queries_nonempty :
  forall members ft q, In q (fan_out_queries members ft) -> q <> [].
Proof.
  induction members as [|m rest IH]; intros ft q; simpl; [intros []|].
  intros [H|H]; [subst; now destruct ft | eauto].
Qed.

Lemma plain_search_holds_list (q : list string) :
  (forall l x, In x (list_of_set l) -> In x l) ->
  q <> [] ->
  forall title, In title (plain_search q) ->
                PyStr.str_in "list" (PyStr.lower title) = true.
Proof.
  intros Hset Hne. apply search_with_list_holds_list; [exact Hset|].
  now apply split_terms_nonempty.
Qed.

Lemma fan_out_results_hold_list (members ft : list string) :
  (forall l x, In x (list_of_set l) -> In x l) ->
  forall title,
    In title (concat (map plain_search (fan_out_queries members ft))) ->
    PyStr.str_in "list" (PyStr.lower title) = true.
Proof.
  intros Hset title Hin. apply in_concat in Hin as [found [Hfound Htitle]].
  apply in_map_iff in Hfound as [q [Hq Hin]]. subst found.
  eapply plain_search_holds_list; eauto.
  eapply fan_out_queries_nonempty; eauto.
Qed.

(** X6: for a non-empty list of terms, every title that
    [list_of_search_results] returns holds the word list,
    case-insensitively, whichever branch produced it. *)
Theorem list_of_search_results_titles_hold_list
        (fuel : nat) (caller : Caller) (terms : list string) (bypass : bool)
        (kwargs found : list string) :
  (forall l x, In x (list_of_set l) -> In x l) ->
  terms <> [] ->
  list_of_search_results (3 + fuel) caller terms bypass kwargs = Some (Ok found) ->
  forall title, In title found ->
                PyStr.str_in "list" (PyStr.lower title) = true.
Proof.
  intros Hset Hne Hres.
  pose proof (split_terms_nonempty _ Hne) as Hsplit.
  destruct bypass.
  - change (3 + fuel) with (S (S (S fuel))) in Hres.
    rewrite list_of_search_results_bypass, parse_unfold in Hres.
    cbv beta zeta in Hres.
    destruct (first_match _NATION_DICT (split_terms terms)) as [[t vp]|].
    + rewrite fan_out_plain in Hres. inversion Hres; subst found.
      now apply fan_out_results_hold_list.
    + destruct (negb (str_mem "skip_replacement_queries" kwargs)).
      * destruct (first_match _REPLACEMENT_QUERIES (split_terms terms))
          as [[t qm]|].
        -- rewrite fan_out_plain in Hres. inversion Hres; subst found.
           now apply fan_out_results_hold_list.
        -- rewrite list_of_search_results_plain in Hres.
           cbn [caller_may_clear_bypass] in Hres. inversion Hres; subst found.
           now apply (plain_search_holds_list (split_terms terms)).
      * rewrite list_of_search_results_plain in Hres.
        cbn [caller_may_clear_bypass] in Hres. inversion Hres; subst found.
        now apply (plain_search_holds_list (split_terms terms)).
  - change (3 + fuel) with (S (2 + fuel)) in Hres.
    rewrite list_of_search_results_plain in Hres.
    destruct (caller_may_clear_bypass caller); [|discriminate].
    inversion Hres; subst found.
    now apply search_with_list_holds_list.
Qed.

Lemma supported_special_case_skips (before rest : list string) :
  (forall x, In x before ->
     x <> "us presidents" /\ x <> "sovereign states formation") ->
  supported_special_case (before ++ rest) = supported_special_case rest.
Proof.
  induction before as [|x before IH]; intros Hnone; [reflexivity|].
  destruct (Hnone x (or_introl eq_refl)) as [H1 H2].
  apply String.eqb_neq in H1, H2.
  cbn [app supported_special_case str_mem existsb _SUPPORTED_LIST_QUERIES].
  rewrite H1, H2. simpl. apply IH. intros y Hy. apply Hnone. now right.
Qed.

(** X7: A search term that is one of the two special-cased queries settles
    the page by itself: the first such term decides, and the search API,
    the hint and the call depth play no part. *)
Theorem process_page_special_cases
        {T : Type} (fuel : nat) (before after : list string)
        (specific_query : option string) (f : page_arg -> res T) :
  (forall x, In x before ->
     x <> "us presidents" /\ x <> "sovereign states formation") ->
  process_page fuel (before ++ "us presidents" :: after) specific_query (Some f)
  = Some (f (OneTitle "List of presidents of the United States"))
  /\ process_page fuel (before ++ "sovereign states formation" :: after)
                  specific_query (Some f)
     = Some (f (OneTitle "List of sovereign states by dates of formation")).
Proof.
  intros Hnone. unfold process_page.
  rewrite !(supported_special_case_skips _ _ Hnone). split; reflexivity.
Qed.

(** X8: without a hint (or with the empty one) and without a special-cased
    term, the page is the first search result; an empty result list raises
    [IndexError], whether or not a processing function was given, and a
    missing processing function raises [ValueError] only after that. *)
Theorem process_page_without_hint
        {T : Type} (fuel : nat) (search_terms : list string)
        (specific_query : option string)
        (processing_function : option (page_arg -> res T)) :
  supported_special_case search_terms = None ->
  specific_query = None \/ specific_query = Some "" ->
  exists candidates,
    list_of_search_results (3 + fuel) External search_terms true
                           ["skip_replacement_queries"] = Some (Ok candidates)
    /\ process_page (3 + fuel) search_terms specific_query processing_function
       = Some (match candidates with
               | [] => Raise IndexError
               | first :: _ =>
                   match processing_function with
                   | Some f => f (OneTitle first)
                   | None => Raise ValueError
                   end
               end).
Proof.
  intros Hspecial Hhint.
  destruct (list_of_search_results_bypass_returns
              External search_terms ["skip_replacement_queries"])
    as [candidates Hcand].
  exists candidates. split; [apply Hcand|].
  unfold process_page. rewrite Hspecial, Hcand.
  destruct Hhint as [H|H]; subst specific_query;
    destruct candidates; reflexivity.
Qed.

(** ** Further properties of page retrieval *)

Lemma has_char_append (c : ascii) (a b : string) :
  has_char c (String.append a b) = has_char c a || has_char c b.
Proof.
  induction a as [|x a IH]; simpl; [reflexivity|].
  now rewrite IH, orb_assoc.
Qed.

Lemma all_ascii_append (a b : string) :
  all_ascii (String.append a b) = all_ascii a && all_ascii b.
Proof.
  induction a as [|x a IH]; [reflexivity|].
  change (String.append (String x a) b) with (String x (String.append a b)).
  cbn [all_ascii]. now rewrite IH, andb_assoc.
Qed.

Lemma remove_non_ascii_clean (s : string) :
  all_ascii (PyStr.remove_non_ascii s) = true.
Proof.
  induction s as [|a s IH]; [reflexivity|].
  cbn [PyStr.remove_non_ascii].
  destruct (128 <=? PyStr.code a) eqn:H; [exact IH|].
  cbn [all_ascii]. rewrite IH, andb_true_r.
  apply Nat.leb_gt in H. now apply Nat.ltb_lt.
Qed.

Lemma replace_char_ascii (c : ascii) (t s : string) :
  all_ascii t = true -> all_ascii s = true ->
  all_ascii (PyStr.replace_char c t s) = true.
Proof.
  intros Ht. induction s as [|a s IH]; [reflexivity|].
  cbn [all_ascii PyStr.replace_char].
  intros Has. apply andb_true_iff in Has as [Ha Hs].
  destruct (Ascii.eqb a c).
  - rewrite all_ascii_append, Ht. cbn [andb]. auto.
  - cbn [all_ascii]. rewrite Ha. cbn [andb]. auto.
Qed.

Lemma replace_char_removes (c : ascii) (t s : string) :
  has_char c t = false -> has_char c (PyStr.replace_char c t s) = false.
Proof.
  intros Ht. induction s as [|a s IH]; simpl; [reflexivity|].
  destruct (Ascii.eqb a c) eqn:Hac.
  - now rewrite has_char_append, Ht, IH.
  - simpl. now rewrite Ascii.eqb_sym, Hac, IH.
Qed.

(** X9: what [_pretty_parse] returns is one line of ASCII text: no newline and
    no character from 128 up is left; so is every page information that
    [parse_page_information] returns. *)
Theorem page_information_is_one_ascii_line :
  (forall item,
      has_char "010" (_pretty_parse item) = false
      /\ all_ascii (_pretty_parse item) = true)
  /\ (forall term info,
      parse_page_information term = Ok info ->
      has_char "010" info = false /\ all_ascii info = true).
Proof.
  assert (Hpretty : forall item,
             has_char "010" (_pretty_parse item) = false
             /\ all_ascii (_pretty_parse item) = true).
  { intros item. unfold _pretty_parse. split.
    - now apply replace_char_removes.
    - apply replace_char_ascii; [reflexivity | apply remove_non_ascii_clean]. }
  split; [exact Hpretty|].
  intros term info. unfold parse_page_information.
  destruct (wk_page term) as [url|e].
  - destruct (page_paragraphs url) as [items|]; [|discriminate].
    intros H. inversion H. apply Hpretty.
  - destruct e; discriminate.
Qed.

(** ** Further properties of the loader *)

Lemma write_file_frame (p content : string) (w : World Env) :
  dirs (snd (write_file p content w)) = dirs w
  /\ env (snd (write_file p content w)) = env w
  /\ forall q, q <> p ->
       files (snd (write_file p content w)) !! q = files w !! q.
Proof.
  unfold write_file.
  repeat match goal with
         | |- context [if ?b then _ else _] => destruct b
         end; simpl; repeat split; auto.
  intros q Hq. now apply lookup_insert_ne.
Qed.

Lemma read_file_frame (p : string) (w : World Env) :
  dirs (snd (read_file p w)) = dirs w
  /\ files (snd (read_file p w)) = files w.
Proof.
  unfold read_file. destruct (files w !! p) as [content|].
  - destruct (pickle_loads content); simpl; auto.
  - destruct (bool_decide (p ∈ dirs w)); simpl; auto.
Qed.

Lemma produce_frame (w : World Env) :
  dirs (snd (produce w)) = dirs w /\ files (snd (produce w)) = files w.
Proof.
  unfold produce. destruct (process_function (env w)). simpl. auto.
Qed.

Lemma enter_frame (self : Loader Data) (w : World Env) :
  dirs (snd (__enter__ self w)) = dirs w
  /\ files (snd (__enter__ self w)) = files w
  /\ save_location (snd (fst (__enter__ self w))) = save_location self
  /\ overwrite_data (snd (fst (__enter__ self w))) = overwrite_data self.
Proof.
  unfold __enter__, _load_or_parse.
  destruct (_is_loaded self); [simpl; auto|].
  destruct (overwrite_data self) eqn:Ho.
  - pose proof (produce_frame w) as [Hd Hf].
    destruct (produce w) as [[d|e] w']; simpl in *; auto.
  - destruct (path_exists w (save_location self)).
    + pose proof (read_file_frame (save_location self) w) as [Hd Hf].
      destruct (read_file (save_location self) w) as [[d|e] w']; simpl in *; auto.
    + pose proof (produce_frame w) as [Hd Hf].
      destruct (produce w) as [[d|e] w']; simpl in *; auto.
Qed.

Lemma exit_frame (self : Loader Data) (w : World Env) :
  dirs (snd (__exit__ self w)) = dirs w
  /\ forall q, q <> save_location self ->
       files (snd (__exit__ self w)) !! q = files w !! q.
Proof.
  unfold __exit__.
  destruct (negb (path_exists w (save_location self))).
  - destruct (write_file_frame (save_location self) (pickle_dumps (data self)) w)
      as [Hd [_ Hf]]. auto.
  - destruct (path_exists w (save_location self) && overwrite_data self).
    + destruct (write_file_frame (save_location self) (pickle_dumps (data self)) w)
        as [Hd [_ Hf]]. auto.
    + simpl. auto.
Qed.

Lemma scoped_use_world (self : Loader Data) (w : World Env) :
  snd (scoped_use self w)
  = match fst (fst (__enter__ self w)) with
    | Ok _ => snd (__exit__ (snd (fst (__enter__ self w))) (snd (__enter__ self w)))
    | Raise _ => snd (__enter__ self w)
    end.
Proof.
  unfold scoped_use. destruct (__enter__ self w) as [[[d|e] self'] w']; simpl.
  - destruct (__exit__ self' w') as [[u|e] w'']; reflexivity.
  - reflexivity.
Qed.

Lemma scoped_use_frame (self : Loader Data) (w : World Env) :
  dirs (snd (scoped_use self w)) = dirs w
  /\ (forall q, q <> save_location self ->
        files (snd (scoped_use self w)) !! q = files w !! q)
  /\ save_location (snd (fst (scoped_use self w))) = save_location self
  /\ overwrite_data (snd (fst (scoped_use self w))) = overwrite_data self.
Proof.
  destruct (scoped_use_parts self w) as [Hself _].
  destruct (enter_frame self w) as [Hd [Hf [Hl Ho]]].
  rewrite Hself, scoped_use_world.
  destruct (fst (fst (__enter__ self w))).
  - destruct (exit_frame (snd (fst (__enter__ self w))) (snd (__enter__ self w)))
      as [Hd' Hf'].
    rewrite Hd', Hd. repeat split; auto.
    intros q Hq. rewrite Hf'; [now rewrite Hf | now rewrite Hl].
  - rewrite Hd, Hf. auto.
Qed.

(** X11: the loader's own file operations stay at its save location:
    [__exit__] leaves the directories, and every file other than the one at
    the save location, as they were; and [__enter__] on a loaded loader, or
    on a loader that does not overwrite and finds something at its save
    location, changes no file and no directory and calls no producer. *)
Theorem loader_touches_only_its_file :
  (forall (self : Loader Data) (w : World Env),
      dirs (snd (__exit__ self w)) = dirs w
      /\ forall q, q <> save_location self ->
           files (snd (__exit__ self w)) !! q = files w !! q)
  /\ (forall (self : Loader Data) (w : World Env),
      _is_loaded self = true
      \/ (overwrite_data self = false
          /\ path_exists w (save_location self) = true) ->
      dirs (snd (__enter__ self w)) = dirs w
      /\ files (snd (__enter__ self w)) = files w
      /\ env (snd (__enter__ self w)) = env w
      /\ produce_count (snd (__enter__ self w)) = produce_count w).
Proof.
  split; [apply exit_frame|].
  intros self w Hpath. unfold __enter__, _load_or_parse.
  destruct (_is_loaded self) eqn:Hl; [simpl; auto|].
  destruct Hpath as [Hloaded | [Ho Hex]]; [discriminate|].
  rewrite Ho, Hex.
  pose proof (read_file_frame (save_location self) w) as [Hd Hf].
  pose proof (read_file_count (save_location self) w) as Hc.
  assert (He : env (snd (read_file (save_location self) w)) = env w).
  { unfold read_file. destruct (files w !! save_location self) as [content|].
    - destruct (pickle_loads content); reflexivity.
    - destruct (bool_decide (save_location self ∈ dirs w)); reflexivity. }
  destruct (read_file (save_location self) w) as [[d|e] w']; simpl in *; auto.
Qed.

Lemma path_exists_same (w w' : World Env) (p : string) :
  dirs w' = dirs w -> files w' = files w ->
  path_exists w' p = path_exists w p.
Proof. intros Hd Hf. unfold path_exists. now rewrite Hd, Hf. Qed.

Lemma scoped_use_keeps_existing (self : Loader Data) (w : World Env) :
  overwrite_data self = false ->
  path_exists w (save_location self) = true ->
  files (snd (scoped_use self w)) = files w
  /\ dirs (snd (scoped_use self w)) = dirs w.
Proof.
  intros Ho Hex.
  destruct (enter_frame self w) as [Hd [Hf [Hl Hov]]].
  rewrite scoped_use_world.
  destruct (fst (fst (__enter__ self w))); [|auto].
  unfold __exit__.
  rewrite Hl, Hov, Ho, (path_exists_same _ _ _ Hd Hf), Hex. simpl. auto.
Qed.

(** X12: A loader that does not overwrite never changes the file system once
    something exists at its save location, however often it is used. *)
Theorem non_overwriting_loader_keeps_existing_file (n : nat) :
  forall (self : Loader Data) (w : World Env),
    overwrite_data self = false ->
    path_exists w (save_location self) = true ->
    files (snd (scoped_uses n self w)) = files w
    /\ dirs (snd (scoped_uses n self w)) = dirs w.
Proof.
  induction n as [|n IH]; intros self w Ho Hex; [simpl; auto|].
  rewrite scoped_uses_step.
  destruct (scoped_use_keeps_existing self w Ho Hex) as [Hf Hd].
  destruct (scoped_use_frame self w) as [_ [_ [Hl Hov]]].
  destruct (IH (snd (fst (scoped_use self w))) (snd (scoped_use self w)))
    as [Hf' Hd'].
  - now rewrite Hov.
  - now rewrite Hl, (path_exists_same _ _ _ Hd Hf).
  - split; congruence.
Qed.

Lemma write_file_ok (p content : string) (w w' : World Env) (u : unit) :
  write_file p content w = (Ok u, w') ->
  String.eqb p "" = false /\ files w' !! p = Some content
  /\ dirs w' = dirs w.
Proof.
  unfold write_file.
  destruct (String.eqb p "") eqn:Hp; [discriminate|].
  destruct (bool_decide (p ∈ dirs w)); [discriminate|].
  destruct (String.eqb (dirname p) "" || bool_decide (dirname p ∈ dirs w)).
  - intros H. inversion H; subst w'. simpl.
    repeat split; auto. apply lookup_insert_eq.
  - destruct (bool_decide (is_Some (files w !! dirname p))); discriminate.
Qed.

Lemma enter_ok (self self' : Loader Data) (w w' : World Env) (d : Data) :
  __enter__ self w = (Ok d, self', w') ->
  _is_loaded self' = true /\ data self' = d
  /\ save_location self' = save_location self.
Proof.
  unfold __enter__, _load_or_parse.
  destruct (_is_loaded self) eqn:Hl.
  - intros H. inversion H; subst. auto.
  - destruct (overwrite_data self).
    + destruct (produce w) as [[d0|e] w0]; intros H; inversion H; subst; auto.
    + destruct (path_exists w (save_location self)).
      * destruct (read_file (save_location self) w) as [[d0|e] w0];
          intros H; inversion H; subst; auto.
      * destruct (produce w) as [[d0|e] w0]; intros H; inversion H; subst; auto.
Qed.

(** X13: A scoped use that returns leaves the loader loaded with the returned
    data, and something exists at the save location afterwards. *)
Theorem scoped_use_persists
        (self self' : Loader Data) (w w' : World Env) (d : Data) :
  scoped_use self w = (Ok d, self', w') ->
  _is_loaded self' = true /\ data self' = d
  /\ save_location self' = save_location self
  /\ path_exists w' (save_location self) = true.
Proof.
  unfold scoped_use.
  destruct (__enter__ self w) as [[[d0|e] self0] w0] eqn:Henter; [|discriminate].
  destruct (enter_ok _ _ _ _ _ Henter) as [Hl [Hd Hs]].
  destruct (__exit__ self0 w0) as [[u|e] w1] eqn:Hexit; [|discriminate].
  intros H. inversion H; subst d0 self0 w1. clear H.
  repeat split; auto.
  unfold __exit__ in Hexit. rewrite Hs in Hexit.
  destruct (path_exists w0 (save_location self)) eqn:Hex; simpl in Hexit.
  - destruct (overwrite_data self').
    + apply write_file_ok in Hexit as [Hne [Hfile _]].
      eapply path_exists_file; eauto.
    + inversion Hexit; subst. exact Hex.
  - apply write_file_ok in Hexit as [Hne [Hfile _]].
    eapply path_exists_file; eauto.
Qed.

(** X14: A loader built to overwrite, on an existing directory, runs the
    producer on its first scoped use and, when the producer returns, stores
    the fresh output at its location, whatever was stored there before. *)
Theorem overwriting_loader_replaces_entry
        (location : string) (w : World Env) (self : Loader Data) :
  __init__ location true w = (Ok self, w) ->
  dirname location ∈ dirs w ->
  location ∉ dirs w ->
  forall produced : Data,
  fst (process_function (env w)) = Ok produced ->
  exists w1,
    scoped_use self w = (Ok produced, set_loaded self produced, w1)
    /\ files w1 !! location = Some (pickle_dumps produced)
    /\ produce_count w1 = S (produce_count w).
Proof.
  intros Hinit Hdir Hnotdir produced Hproduced.
  unfold __init__ in Hinit.
  destruct (String.eqb location "") eqn:Hne; [discriminate|].
  destruct (negb (path_exists w (dirname location))); [discriminate|].
  inversion Hinit; subst self; clear Hinit.
  destruct (process_function (env w)) as [r e'] eqn:Hprod.
  simpl in Hproduced. subst r. rename produced into d.
  set (wp := mkWorld (files w) (dirs w) e' (trace w ++ [EvProduce])).
  assert (Henter : __enter__ (mkLoader location true false py_None) w
                   = (Ok d, mkLoader location true true d, wp)).
  { unfold __enter__, _load_or_parse, produce. simpl. now rewrite Hprod. }
  assert (Hwrite : write_file location (pickle_dumps d) wp
                   = (Ok tt, mkWorld (<[location := pickle_dumps d]> (files w))
                                     (dirs w) e'
                                     (trace wp ++ [EvWrite location]))).
  { unfold write_file. rewrite Hne.
    rewrite (bool_decide_eq_false_2 _ Hnotdir).
    rewrite (bool_decide_eq_true_2 _ Hdir), orb_true_r. reflexivity. }
  assert (Hexit : __exit__ (mkLoader location true true d) wp
                  = (Ok tt, mkWorld (<[location := pickle_dumps d]> (files w))
                                    (dirs w) e'
                                    (trace wp ++ [EvWrite location]))).
  { unfold __exit__. cbn [save_location overwrite_data data].
    destruct (path_exists wp location); simpl; exact Hwrite. }
  eexists. split; [|split].
  - unfold scoped_use. rewrite Henter, Hexit. reflexivity.
  - simpl. apply lookup_insert_eq.
  - rewrite produce_count_app. subst wp. rewrite produce_count_app. lia.
Qed.

(** ** Further properties of the table extractors *)

Lemma findall_d4_four_bounded (n : nat) :
  forall s, String.length s <= n ->
  forall y, In y (PyStr.findall_d4 s) -> four_digits y = true.
Proof.
  induction n as [|n IH]; intros s Hlen y Hin.
  - destruct s; [contradiction | simpl in Hlen; lia].
  - destruct s as [|a [|b [|c [|d rest]]]]; try contradiction.
    cbn [PyStr.findall_d4] in Hin.
    destruct (PyStr.is_digit a && PyStr.is_digit b && PyStr.is_digit c
              && PyStr.is_digit d) eqn:Hd.
    + destruct Hin as [Hy|Hin].
      * subst y. exact Hd.
      * apply (IH rest); [simpl in *; lia | exact Hin].
    + apply (IH (String b (String c (String d rest)))); [simpl in *; lia | exact Hin].
Qed.

Lemma findall_d4_four (s y : string) :
  In y (PyStr.findall_d4 s) -> four_digits y = true.
Proof. apply (findall_d4_four_bounded (String.length s)). lia. Qed.

Lemma dict_set_In {V : Type} (d : list (string * V)) (key : string) (value : V)
      (k : string) (v : V) :
  In (k, v) (dict_set d key value) -> (k = key /\ v = value) \/ In (k, v) d.
Proof.
  induction d as [|[k0 v0] d IH]; simpl.
  - intros [H|[]]. inversion H. auto.
  - destruct (String.eqb k0 key) eqn:Hk.
    + apply String.eqb_eq in Hk. subst k0.
      intros [H|H]; [inversion H; auto | auto].
    + intros [H|H]; [auto|]. destruct (IH H); auto.
Qed.

Lemma dict_set_key_In {V : Type} (d : list (string * V)) (key : string)
      (value : V) (k : string) :
  In k (map fst (dict_set d key value)) -> k = key \/ In k (map fst d).
Proof.
  intros H. apply in_map_iff in H as [[k' v'] [Hk Hin]]. simpl in Hk. subst k'.
  apply dict_set_In in Hin as [[Hk _]|Hin]; [auto|].
  right. apply in_map_iff. exists (k, v'). auto.
Qed.

Lemma dict_set_NoDup {V : Type} (d : list (string * V)) (key : string)
      (value : V) :
  NoDup (map fst d) -> NoDup (map fst (dict_set d key value)).
Proof.
  induction d as [|[k0 v0] d IH]; simpl; intros Hnd.
  - constructor; [intros [] | constructor].
  - inversion Hnd as [|? ? Hnotin Hrest]; subst.
    destruct (String.eqb k0 key) eqn:Hk; simpl.
    + constructor; assumption.
    + constructor; [|auto].
      intros Hin. apply dict_set_key_In in Hin as [Heq|Hin]; [|contradiction].
      apply String.eqb_neq in Hk. congruence.
Qed.

Lemma years_loop_well_formed :
  forall pairs founding_dates result,
    years_loop pairs founding_dates = Ok result ->
    NoDup (map fst founding_dates) ->
    (forall n y, In (n, y) founding_dates ->
       four_digits y = true /\ str_mem n ["Czechia"; "Palestine"] = false) ->
    NoDup (map fst result)
    /\ (forall n y, In (n, y) result ->
          four_digits y = true /\ str_mem n ["Czechia"; "Palestine"] = false).
Proof.
  induction pairs as [|[nation date] pairs IH]; intros fd result Hres Hnd Hall.
  - inversion Hres; subst. auto.
  - rewrite years_loop_cons in Hres.
    destruct (str_mem nation ["Czechia"; "Palestine"]) eqn:Hskip.
    + eapply IH; eauto.
    + destruct (PyStr.findall_d4 date) as [|y0 ys] eqn:Hfind; [discriminate|].
      eapply IH; [exact Hres | now apply dict_set_NoDup |].
      intros n y Hin. apply dict_set_In in Hin as [[Hn Hy]|Hin]; [|auto].
      subst. split; [|exact Hskip].
      apply (findall_d4_four date). rewrite Hfind. now left.
Qed.

(** X15: what the founding-date extraction returns is a dictionary: no nation
    twice, every year a string of exactly four digits, and neither of the
    two skipped names among the keys. *)
Theorem founding_dates_are_well_formed
        (tables : list (list string)) (result : list (string * string)) :
  founding_dates_of_rows tables = Ok result ->
  NoDup (map fst result)
  /\ forall nation year, In (nation, year) result ->
       four_digits year = true
       /\ nation <> "Czechia" /\ nation <> "Palestine".
Proof.
  unfold founding_dates_of_rows.
  destruct (rows_loop tables [] []) as [[nations dates]|e]; [|discriminate].
  intros Hres.
  destruct (years_loop_well_formed _ _ _ Hres) as [Hnd Hall].
  - constructor.
  - intros n y [].
  - split; [exact Hnd|]. intros nation year Hin.
    destruct (Hall _ _ Hin) as [Hy Hskip]. split; [exact Hy|].
    unfold str_mem in Hskip. simpl in Hskip.
    apply orb_false_iff in Hskip as [H1 H2].
    apply orb_false_iff in H2 as [H2 _].
    apply String.eqb_neq in H1, H2. auto.
Qed.

Lemma years_loop_keys :
  forall pairs founding_dates result,
    years_loop pairs founding_dates = Ok result ->
    forall k, In k (map fst result) ->
              In k (map fst founding_dates) \/ In k (map fst pairs).
Proof.
  induction pairs as [|[nation date] pairs IH]; intros fd result Hres k Hk.
  - inversion Hres; subst. auto.
  - rewrite years_loop_cons in Hres. simpl.
    destruct (str_mem nation ["Czechia"; "Palestine"]).
    + destruct (IH _ _ Hres k Hk); auto.
    + destruct (PyStr.findall_d4 date) as [|y0 ys]; [discriminate|].
      destruct (IH _ _ Hres k Hk) as [H|H]; [|auto].
      apply dict_set_key_In in H as [H|H]; auto.
Qed.

Lemma nation_check_tracked (current_value : list string) (st : cell_state) :
  Forall tracked_nation (_nation_tracker st) ->
  match nation_check current_value st with
  | Next st' | Break st' => Forall tracked_nation (_nation_tracker st')
  | Fail _ => True
  end.
Proof.
  intros Hst. unfold nation_check.
  destruct current_value as [|first rest]; [exact Hst|].
  cbv zeta.
  set (pn := PyStr.remove_non_ascii
               (sub_brackets 0 (PyStr.strip (PyStr.remove_char "160" first)))).
  destruct (is_valid_country (PyStr.strip pn)) eqn:Hvalid; [|exact Hst].
  destruct (str_mem pn (_nation_tracker st)); [exact Hst|].
  cbn [_nation_tracker]. apply Forall_app. split; [exact Hst|].
  constructor; [|constructor].
  destruct (String.eqb (PyStr.strip pn) "Cabo Verde"); [now right | now left].
Qed.

Lemma cell_step_tracked (indx : nat) (value : string) (st : cell_state) :
  Forall tracked_nation (_nation_tracker st) ->
  match cell_step indx value st with
  | Next st' | Break st' => Forall tracked_nation (_nation_tracker st')
  | Fail _ => True
  end.
Proof.
  intros Hst. unfold cell_step.
  assert (Hdate : forall cv,
             match date_column cv st with
             | Next st' | Break st' => Forall tracked_nation (_nation_tracker st')
             | Fail _ => True
             end).
  { intros cv. unfold date_column. destruct cv as [|first rest]; [exact Hst|].
    destruct (PyStr.has_digit first); exact Hst. }
  destruct (truthy (is_nation st)); [|now apply nation_check_tracked].
  destruct (is_nation_eq (is_nation st) "Iceland"); [exact Hst|].
  destruct (indx =? 1); [apply Hdate|].
  destruct (indx =? 2).
  - destruct (is_nation_eq (is_nation st) "China"); [exact Hst | apply Hdate].
  - destruct (indx =? 3); [|exact Hst].
    destruct (cell_lines value) as [|first rest]; [exact I|].
    now apply nation_check_tracked.
Qed.

Lemma cells_loop_tracked :
  forall data_values indx st st',
    Forall tracked_nation (_nation_tracker st) ->
    cells_loop indx data_values st = Ok st' ->
    Forall tracked_nation (_nation_tracker st').
Proof.
  induction data_values as [|value rest IH]; intros indx st st' Hst Hres.
  - inversion Hres; subst. exact Hst.
  - rewrite cells_loop_cons in Hres.
    pose proof (cell_step_tracked indx value st Hst) as Hstep.
    destruct (cell_step indx value st) as [st1|st1|e].
    + eapply IH; eauto.
    + inversion Hres; subst. exact Hstep.
    + discriminate.
Qed.

Lemma rows_loop_tracked :
  forall tables nations dates nations' dates',
    Forall tracked_nation nations ->
    rows_loop tables nations dates = Ok (nations', dates') ->
    Forall tracked_nation nations'.
Proof.
  induction tables as [|row rest IH]; intros ns ds ns' ds' Hns Hres.
  - inversion Hres; subst. exact Hns.
  - rewrite rows_loop_cons in Hres.
    destruct (cells_loop 0 row (mkCellState None ns ds)) as [st|e] eqn:Hrow;
      [|discriminate].
    eapply IH; [|exact Hres].
    eapply cells_loop_tracked; [|exact Hrow]. exact Hns.
Qed.

(** X16: every nation in the extracted founding dates passed
    [is_valid_country] (on its stripped name), or is the entry renamed to
    Cape Verde. *)
Theorem founding_dates_hold_valid_countries
        (tables : list (list string)) (result : list (string * string)) :
  founding_dates_of_rows tables = Ok result ->
  forall nation year, In (nation, year) result ->
    is_valid_country (PyStr.strip nation) = true \/ nation = "Cape Verde".
Proof.
  unfold founding_dates_of_rows.
  destruct (rows_loop tables [] []) as [[nations dates]|e] eqn:Hrows;
    [|discriminate].
  intros Hres nation year Hin.
  assert (Htracked : Forall tracked_nation nations).
  { eapply rows_loop_tracked; [|exact Hrows]. constructor. }
  assert (Hkey : In nation (map fst result)).
  { apply in_map_iff. exists (nation, year). auto. }
  destruct (years_loop_keys _ _ _ Hres _ Hkey) as [[]|Hpair].
  apply in_map_iff in Hpair as [[n d] [Hn Hnd]]. simpl in Hn. subst n.
  apply in_combine_l in Hnd.
  rewrite Forall_forall in Htracked. exact (Htracked _ Hnd).
Qed.







(** ** Properties of the bracket removal and of the presidents' lists *)

Lemma lazy_none_kept :
  forall s, lazy_bracket_len s = None ->
            lazy_bracket_len (sub_brackets 0 s) = None.
Proof.
  induction s as [|c s IH]; [reflexivity|].
  cbn [lazy_bracket_len sub_brackets].
  destruct (PyStr.code c =? 93) eqn:H93; [discriminate|].
  destruct (PyStr.code c =? 10) eqn:H10.
  - intros _. destruct (PyStr.code c =? 91) eqn:H91.
    + apply Nat.eqb_eq in H10, H91. lia.
    + cbn [lazy_bracket_len]. now rewrite H93, H10.
  - intros Hn. destruct (lazy_bracket_len s) eqn:Hl; [discriminate|].
    destruct (PyStr.code c =? 91);
      cbn [lazy_bracket_len]; now rewrite H93, H10, IH.
Qed.

Lemma sub_brackets_no_pair :
  forall s skip, has_bracket_pair (sub_brackets skip s) = false.
Proof.
  induction s as [|c s IH]; intros skip; [reflexivity|].
  cbn [sub_brackets]. destruct skip as [|k]; [|apply IH].
  destruct (PyStr.code c =? 91) eqn:H91.
  - destruct (lazy_bracket_len s) as [n|] eqn:Hl; [apply IH|].
    cbn [has_bracket_pair]. now rewrite H91, (lazy_none_kept _ Hl), IH.
  - cbn [has_bracket_pair]. now rewrite H91, IH.
Qed.

Lemma sub_brackets_fixed :
  forall t, has_bracket_pair t = false -> sub_brackets 0 t = t.
Proof.
  induction t as [|c t IH]; [reflexivity|].
  cbn [has_bracket_pair sub_brackets]. intros H.
  apply orb_false_iff in H as [Hc Ht].
  destruct (PyStr.code c =? 91).
  - destruct (lazy_bracket_len t); [discriminate|]. now rewrite IH.
  - now rewrite IH.
Qed.

(** X19: after the bracketed markers are removed, no opening bracket is
    followed by a closing one on the same line, and removing again changes
    nothing. *)
Theorem sub_brackets_clears_markers (s : string) :
  has_bracket_pair (sub_brackets 0 s) = false
  /\ sub_brackets 0 (sub_brackets 0 s) = sub_brackets 0 s.
Proof.
  split; [apply sub_brackets_no_pair|].
  apply sub_brackets_fixed, sub_brackets_no_pair.
Qed.

Lemma party_cells_closed :
  forall cells indx political_parties,
    party_cells indx cells political_parties
    = political_parties
        ++ (if indx <=? 4
            then match nth_error cells (4 - indx) with
                 | Some item =>
                     if str_mem (PyStr.strip item) ["Sources:"] then []
                     else [sub_brackets 0 (PyStr.strip item)]
                 | None => []
                 end
            else []).
Proof.
  induction cells as [|item rest IH]; intros indx acc.
  - cbn [party_cells]. destruct (indx <=? 4); [|now rewrite app_nil_r].
    destruct (4 - indx); now rewrite app_nil_r.
  - cbn [party_cells].
    destruct indx as [|[|[|[|[|indx]]]]];
      cbn [Nat.eqb Nat.leb Nat.sub nth_error];
      destruct (str_mem (PyStr.strip item) ["Sources:"]);
      rewrite IH; cbn [Nat.leb Nat.sub];
      rewrite ?app_nil_r; reflexivity.
Qed.

Lemma party_rows_fold (rows : list (list string)) :
  forall acc,
    fold_left (fun political_parties row => party_cells 0 row political_parties)
              rows acc
    = acc ++ flat_map row_party rows.
Proof.
  induction rows as [|row rows IH]; intros acc; cbn [fold_left flat_map].
  - now rewrite app_nil_r.
  - rewrite IH, party_cells_closed. cbn [Nat.leb Nat.sub].
    unfold row_party. now rewrite <- app_assoc.
Qed.

(** X20: the list of parties holds, row by row, the fifth cell of every row
    that has one other than the sentinel, stripped and with the bracketed
    markers removed; no entry keeps a bracket pair. *)
Theorem party_rows_take_fifth_cells (rows : list (list string)) :
  party_rows rows = flat_map row_party rows
  /\ forall party, In party (party_rows rows) ->
                   has_bracket_pair party = false.
Proof.
  assert (H : party_rows rows = flat_map row_party rows).
  { unfold party_rows. now rewrite party_rows_fold. }
  split; [exact H|]. intros party Hin. rewrite H in Hin.
  apply in_flat_map in Hin as [row [_ Hrow]]. unfold row_party in Hrow.
  destruct (nth_error row 4) as [item|]; [|contradiction].
  destruct (str_mem (PyStr.strip item) ["Sources:"]); [contradiction|].
  destruct Hrow as [Hp|[]]. subst party. apply sub_brackets_no_pair.
Qed.

Lemma presidential_information_ok :
  forall presidents info_list infos,
    presidential_information presidents info_list = Ok infos
    <-> exists added,
          infos = info_list ++ added
          /\ Forall2 (fun president info =>
                        parse_page_information president = Ok info)
                     presidents added.
Proof.
  induction presidents as [|p rest IH]; intros acc infos; cbn [presidential_information].
  - split.
    + intros H. inversion H; subst. exists []. split; [now rewrite app_nil_r | constructor].
    + intros [added [Hi Hf]]. inversion Hf; subst. now rewrite app_nil_r.
  - destruct (parse_page_information p) as [info|e] eqn:Hp.
    + rewrite IH. split.
      * intros [added [Hi Hf]]. exists (info :: added). split.
        -- now rewrite Hi, <- app_assoc.
        -- now constructor.
      * intros [added [Hi Hf]]. inversion Hf as [|? info' ? added' Hhead Htail]; subst.
        rewrite Hp in Hhead. inversion Hhead; subst info'.
        exists added'. split; [now rewrite <- app_assoc | exact Htail].
    + split; [discriminate|].
      intros [added [_ Hf]]. inversion Hf as [|? info' ? added' Hhead Htail]; subst.
      congruence.
Qed.

Lemma presidential_information_fails :
  forall before info_list president after e,
    Forall (fun b => exists info, parse_page_information b = Ok info) before ->
    parse_page_information president = Raise e ->
    presidential_information (before ++ president :: after) info_list = Raise e.
Proof.
  induction before as [|b before IH]; intros acc p after e Hbefore Hp.
  - cbn [app presidential_information]. now rewrite Hp.
  - inversion Hbefore as [|? ? [info Hb] Hrest]; subst.
    cbn [app presidential_information]. rewrite Hb. now apply IH.
Qed.

(** X21: the presidential producer returns one page information per president,
    in order, exactly when every page is retrieved; otherwise it raises
    what the first failing retrieval raises, and returns nothing. *)
Theorem presidential_process_function_all_or_nothing
        (presidents : list string) :
  (forall infos,
      presidential_process_function presidents = Ok infos
      <-> Forall2 (fun president info =>
                     parse_page_information president = Ok info)
                  presidents infos)
  /\ (forall before president after e,
        presidents = before ++ president :: after ->
        Forall (fun b => exists info, parse_page_information b = Ok info) before ->
        parse_page_information president = Raise e ->
        presidential_process_function presidents = Raise e).
Proof.
  split.
  - intros infos. unfold presidential_process_function.
    rewrite presidential_information_ok. split.
    + intros [added [Hi Hf]]. now subst.
    + intros Hf. exists infos. auto.
  - intros before p after e Hsplit Hbefore Hp. subst presidents.
    now apply presidential_information_fails.
Qed.

(** ** Properties of the path functions *)

Lemma append_empty (s : string) : String.append s EmptyString = s.
Proof.
  induction s as [|a s IH]; [reflexivity|].
  change (String.append (String a s) EmptyString)
    with (String a (String.append s EmptyString)).
  now rewrite IH.
Qed.

Lemma str_take_drop (n : nat) :
  forall s, String.append (str_take n s) (str_drop n s) = s.
Proof.
  induction n as [|n IH]; intros [|a s]; try reflexivity.
  cbn [str_take str_drop].
  change (String.append (String a (str_take n s)) (str_drop n s))
    with (String a (String.append (str_take n s) (str_drop n s))).
  now rewrite IH.
Qed.

Lemma has_char_drop (c : ascii) (n : nat) :
  forall s, has_char c s = false -> has_char c (str_drop n s) = false.
Proof.
  induction n as [|n IH]; intros [|a s]; cbn [str_drop has_char]; auto.
  intros H. apply orb_false_iff in H as [_ H]. auto.
Qed.

Lemma has_char_take (c : ascii) (n : nat) :
  forall s, has_char c s = false -> has_char c (str_take n s) = false.
Proof.
  induction n as [|n IH]; intros [|a s]; cbn [str_take has_char]; auto.
  intros H. apply orb_false_iff in H as [Ha H]. rewrite Ha. cbn [orb]. auto.
Qed.

Lemma str_drop_add (a b : nat) :
  forall s, str_drop (a + b) s = str_drop b (str_drop a s).
Proof.
  induction a as [|a IH]; intros s; [reflexivity|].
  destruct s as [|x s]; cbn [Nat.add str_drop].
  - now destruct b.
  - apply IH.
Qed.

Lemma rfind_none (c : ascii) :
  forall s, rfind c s = None -> has_char c s = false.
Proof.
  induction s as [|a s IH]; [reflexivity|].
  cbn [rfind has_char]. destruct (rfind c s); [discriminate|].
  destruct (Ascii.eqb c a); [discriminate|]. intros _. now rewrite IH.
Qed.

Lemma rfind_some (c : ascii) :
  forall s i, rfind c s = Some i ->
    exists t, str_drop i s = String c t /\ has_char c t = false.
Proof.
  induction s as [|a s IH]; intros i; [discriminate|].
  cbn [rfind]. destruct (rfind c s) as [j|] eqn:Hr.
  - intros H. inversion H; subst. cbn [str_drop]. now apply IH.
  - destruct (Ascii.eqb c a) eqn:Hca; [|discriminate].
    intros H. inversion H; subst. cbn [str_drop].
    apply Ascii.eqb_eq in Hca. subst a.
    exists s. split; [reflexivity | now apply rfind_none].
Qed.

Lemma no_slash_from_filename (p : string) (d : nat) :
  filename_index p <= d -> has_char "/" (str_drop d p) = false.
Proof.
  unfold filename_index. destruct (rfind "/" p) as [sp|] eqn:Hr.
  - intros Hle. destruct (rfind_some _ _ _ Hr) as [t [Hdrop Ht]].
    replace d with (sp + (1 + (d - S sp))) by lia.
    rewrite str_drop_add, Hdrop, str_drop_add. cbn [str_drop].
    now apply has_char_drop.
  - intros _. apply has_char_drop. now apply rfind_none.
Qed.

(** X22: [os.path.splitext] cuts the path in two without losing anything: the
    extension is empty, or it is a dot followed by characters that hold
    neither a dot nor a slash; and [convert_path_extension] puts the new
    extension after that root. *)
Theorem splitext_cuts_at_extension (path conversion : string) :
  String.append (fst (splitext path)) (snd (splitext path)) = path
  /\ (snd (splitext path) = EmptyString
      \/ exists e, snd (splitext path) = String "." e
                   /\ has_char "." e = false /\ has_char "/" e = false)
  /\ convert_path_extension path conversion
     = String.append (fst (splitext path)) conversion.
Proof.
  split; [|split].
  - unfold splitext. destruct (rfind "." path) as [d|].
    + destruct (_ && _); cbn [fst snd];
        [apply str_take_drop | now rewrite append_empty].
    + cbn [fst snd]. now rewrite append_empty.
  - unfold splitext. destruct (rfind "." path) as [d|] eqn:Hdot; [|now left].
    destruct ((filename_index path <=? d) && _) eqn:Hcond; [|now left].
    right. cbn [snd].
    apply andb_true_iff in Hcond as [Hle _]. apply Nat.leb_le in Hle.
    destruct (rfind_some _ _ _ Hdot) as [e [Hdrop He]].
    exists e. split; [exact Hdrop | split; [exact He|]].
    pose proof (no_slash_from_filename path d Hle) as Hslash.
    rewrite Hdrop in Hslash. cbn [has_char] in Hslash.
    now apply orb_false_iff in Hslash as [_ Hslash].
  - unfold convert_path_extension. now destruct (splitext path).
Qed.

(** X23: [get_base_path_name] returns a name without any slash, and the final
    component of the path is that name followed by the extension. *)
Theorem get_base_path_name_is_plain (file : string) :
  has_char "/" (get_base_path_name file) = false
  /\ String.append (get_base_path_name file) (snd (splitext (basename file)))
     = basename file
  /\ String.append (str_take (filename_index file) file) (basename file) = file.
Proof.
  assert (Hbase : has_char "/" (basename file) = false).
  { unfold basename. now apply no_slash_from_filename. }
  split; [|split].
  - unfold get_base_path_name, splitext.
    destruct (rfind "." (basename file)) as [d|]; [|exact Hbase].
    destruct (_ && _); cbn [fst]; [now apply has_char_take | exact Hbase].
  - unfold get_base_path_name. unfold splitext.
    destruct (rfind "." (basename file)) as [d|].
    + destruct (_ && _); cbn [fst snd];
        [apply str_take_drop | now rewrite append_empty].
    + cbn [fst snd]. now rewrite append_empty.
  - apply str_take_drop.
Qed.

End Repository.

Arguments path_exists {Env} w p.
Arguments produce_count {Env} w.
Arguments set_loaded {Data} self d.

(** ** Worked examples on the sample data *)

Example lower_mixed : PyStr.lower "List of Foo" = "list of foo".
Proof. reflexivity. Qed.

Example split_two_spaces : PyStr.split_on " " "a  b" = ["a"; ""; "b"].
Proof. reflexivity. Qed.

Example findall_year :
  PyStr.findall_d4 "1947 (current constitution 19471)" = ["1947"; "1947"].
Proof. reflexivity. Qed.

Example dirname_of_pickle :
  dirname "/data/flag_data.pickle" = "/data" /\ dirname "flag_data.pickle" = "".
Proof. split; reflexivity. Qed.

Example py_int_cases :
  py_int "1,081" = None /\ py_int (PyStr.remove_char "," "1,081") = Some 1081%Z
  /\ py_int " -12_0 " = Some (-120)%Z /\ py_int "n/a" = None.
Proof. repeat split; reflexivity. Qed.

(** With a hint that no candidate matches, [_valid_list] is the whole
    result list. *)
Example process_page_unmatched_hint :
  process_page sample_search sample_nations first_occurrences
               3 ["foo"] (Some "zebra") (Some (fun a => Ok a))
  = Some (Ok (TitleList ["list of foo"; "List of Foo bar"])).
Proof. vm_compute. reflexivity. Qed.

(** The member [sovereign states] is not a registered spaced query: it
    is split before the groups are consulted. *)
Example spaced_synonym_is_split :
  split_terms ["sovereign states"] = ["sovereign"; "states"]
  /\ first_match _REPLACEMENT_QUERIES (split_terms ["sovereign states"]) = None.
Proof. split; reflexivity. Qed.

(** The witness of C10 on the sample search. *)
Lemma search_multiple_words_keeps_full_matches_witness :
  2 <= length ["president"; "list"]
  /\ In "List of presidents of France"
        (search_multiple_words sample_search ["president"; "list"] 20)
  /\ PyStr.str_in (PyStr.lower "president")
                  (PyStr.lower "List of presidents of France") = true.
Proof.
  assert (Hlen : 2 <= length ["president"; "list"]) by (simpl; lia).
  assert (Hin : In "List of presidents of France"
                   (search_multiple_words sample_search ["president"; "list"] 20))
    by (vm_compute; left; reflexivity).
  split; [exact Hlen | split; [exact Hin|]].
  apply (search_multiple_words_keeps_full_matches
           sample_search ["president"; "list"] 20 Hlen _ Hin).
  simpl. left. reflexivity.
Defined.

(** The counterexample to C2 as stated: the first candidate equals the
    hint only up to case, the second holds it as a substring; the code
    resolves to the first, the wording to the second. *)
Lemma process_page_hint_priority_counterexample :
  list_of_search_results sample_search sample_nations first_occurrences
                         3 External ["foo"] true ["skip_replacement_queries"]
  = Some (Ok ["list of foo"; "List of Foo bar"])
  /\ process_page sample_search sample_nations first_occurrences
                  3 ["foo"] (Some "List of Foo") (Some (fun a => Ok a))
     = Some (Ok (OneTitle "list of foo"))
  /\ spec_hint_choice "List of Foo" ["list of foo"; "List of Foo bar"]
     = Some "List of Foo bar".
Proof. repeat split; vm_compute; reflexivity. Qed.

(** The witness of C2 as amended. *)
Lemma process_page_takes_first_hinted_candidate_witness :
  exists candidates,
    list_of_search_results sample_search sample_nations first_occurrences
                           (3 + 0) External ["foo"] true
                           ["skip_replacement_queries"] = Some (Ok candidates)
    /\ forall before found after,
        candidates = before ++ found :: after ->
        (forall c, In c before ->
                   PyStr.str_in "List of Foo" c = false
                   /\ PyStr.lower "List of Foo" <> PyStr.lower c) ->
        PyStr.str_in "List of Foo" found = true
        \/ PyStr.lower "List of Foo" = PyStr.lower found ->
        process_page sample_search sample_nations first_occurrences
                     (3 + 0) ["foo"] (Some "List of Foo")
                     (Some (fun a : page_arg => Ok a))
        = Some (Ok (OneTitle found)).
Proof.
  apply (process_page_takes_first_hinted_candidate
           sample_search sample_nations first_occurrences 0 ["foo"]
           "List of Foo" (fun a => Ok a)).
  - reflexivity.
  - discriminate.
Defined.

(** The counterexample to C4 as stated: [process_page] passes
    [skip_replacement_queries], and then a query holding [president] is
    searched once, without its synonyms; the title that the member
    [prime minister] would find is missing. *)
Lemma replacement_fan_out_skipped_counterexample :
  In ["president"; "presidents"; "prime minister"; "prime ministers"]
     _REPLACEMENT_QUERIES
  /\ list_of_search_results sample_search sample_nations first_occurrences
                            3 External ["president"] true
                            ["skip_replacement_queries"]
     = Some (Ok ["List of presidents of France"])
  /\ In "List of prime ministers of Japan"
        (plain_search sample_search first_occurrences
                      (list_remove "president" ["president"] ++ ["prime minister"]))
  /\ ~ In "List of prime ministers of Japan" ["List of presidents of France"].
Proof.
  split; [right; left; reflexivity|].
  split; [vm_compute; reflexivity|].
  split; [vm_compute; left; reflexivity|].
  intros [H|[]]. discriminate H.
Qed.

(** The witness of C4 as amended. *)
Lemma replacement_fan_out_covers_group_witness :
  In ["president"; "presidents"; "prime minister"; "prime ministers"]
     _REPLACEMENT_QUERIES
  /\ In "president" ["president"; "presidents"; "prime minister"; "prime ministers"]
  /\ exists queries,
      Forall2 (fun q g =>
                 Permutation q (list_remove "president" (split_terms ["president"])
                                  ++ [g]))
              queries
              ["president"; "presidents"; "prime minister"; "prime ministers"]
      /\ list_of_search_results sample_search sample_nations first_occurrences
                                (3 + 0) External ["president"] true []
         = Some (Ok (concat (map (plain_search sample_search first_occurrences)
                                 queries))).
Proof.
  apply (replacement_fan_out_covers_group
           sample_search sample_nations first_occurrences 0 External
           ["president"] [] "president"
           ["president"; "presidents"; "prime minister"; "prime ministers"]);
    reflexivity.
Defined.

(** The witness of C6 on the sample pages. *)
Lemma parse_page_information_rejects_disambiguation_witness :
  sample_page "Georgia" = Raise DisambiguationError
  /\ parse_page_information sample_page (fun _ => Some []) "Georgia"
     = Raise ValueError.
Proof.
  split; [reflexivity|].
  apply (parse_page_information_rejects_disambiguation
           sample_page (fun _ => Some []) "Georgia").
  reflexivity.
Defined.

(** The counterexample to C7 as stated. The empty save location has no
    existing parent directory either, and construction fails on the
    earlier check, with [ValueError]. And with a regular file where the
    parent directory should be, the parent path exists: construction
    returns, the producer runs, and the error comes from the write on
    exit. *)
Lemma init_directory_check_counterexample :
  (path_exists fresh_world (dirname "") = false
   /\ __init__ string "" nat "" false fresh_world
      = (Raise ValueError, fresh_world))
  /\ (dirname "/data/flag_data.pickle" ∉ dirs file_parent_world)
  /\ __init__ string "" nat "/data/flag_data.pickle" false file_parent_world
     = (Ok (mkLoader "/data/flag_data.pickle" false false ""), file_parent_world)
  /\ construct_and_use string "" (fun d => d) (fun content => Some content)
                       nat sample_producer
                       "/data/flag_data.pickle" false file_parent_world
     = (Raise NotADirectoryError,
        mkWorld (files file_parent_world) ∅ 1 [EvProduce]).
Proof.
  split; [split; reflexivity|].
  split; [|split].
  - cbn [dirs file_parent_world]. apply not_elem_of_empty.
  - vm_compute. reflexivity.
  - vm_compute. reflexivity.
Qed.

(** The witness of C7 as amended. *)
Lemma init_rejects_missing_directory_witness :
  "/missing/flag_data.pickle" <> ""
  /\ path_exists fresh_world (dirname "/missing/flag_data.pickle") = false
  /\ __init__ string "" nat "/missing/flag_data.pickle" false fresh_world
     = (Raise NotADirectoryError, fresh_world)
  /\ construct_and_use string "" (fun d => d) (fun content => Some content)
                       nat sample_producer
                       "/missing/flag_data.pickle" false fresh_world
     = (Raise NotADirectoryError, fresh_world).
Proof.
  assert (Hne : "/missing/flag_data.pickle" <> "") by discriminate.
  assert (Hdir : path_exists fresh_world (dirname "/missing/flag_data.pickle")
                 = false) by (vm_compute; reflexivity).
  split; [exact Hne | split; [exact Hdir|]].
  apply (init_rejects_missing_directory
           string "" (fun d => d) (fun content => Some content)
           nat sample_producer _ false fresh_world Hne Hdir).
Defined.

(** The counterexample to C1 as stated: a producer that raises leaves
    the loader unloaded, and the next scoped use calls it again: two
    producer calls over two uses of one loader. *)
Lemma loader_failing_producer_counterexample :
  scoped_use string (fun d => d) (fun content => Some content) nat
             failing_producer
             (mkLoader "/data/flag_data.pickle" false false "") fresh_world
  = (Raise ValueError, mkLoader "/data/flag_data.pickle" false false "",
     mkWorld ∅ {["/data"]} 1 [EvProduce])
  /\ produce_count
       (snd (scoped_uses string (fun d => d) (fun content => Some content) nat
                         failing_producer 2
                         (mkLoader "/data/flag_data.pickle" false false "")
                         fresh_world))
     = 2
  /\ ~ (2 <= produce_count fresh_world + 1).
Proof.
  split; [vm_compute; reflexivity|].
  split; [vm_compute; reflexivity|].
  cbn. lia.
Qed.

(** The witness of C1 as amended: a loader that finds its file returns
    what is stored, and the sample producer, which returns whenever it is
    called, runs once over three scoped uses. *)
Lemma loader_loads_stored_result_witness :
  (exists w',
      __enter__ string (fun content => Some content) nat sample_producer
                (mkLoader "/data/flag_data.pickle" false false "") sample_world
      = (Ok "stored",
         set_loaded (mkLoader "/data/flag_data.pickle" false false "") "stored",
         w')
      /\ produce_count w' = produce_count sample_world
      /\ files w' = files sample_world)
  /\ produce_count
       (snd (scoped_uses string (fun d => d) (fun content => Some content) nat
                         sample_producer 3
                         (mkLoader "/data/flag_data.pickle" false false "")
                         fresh_world))
     <= produce_count fresh_world + 1.
Proof.
  split.
  - apply (proj1 (loader_loads_stored_result_and_produces_at_most_once
                    string (fun d => d) (fun content => Some content)
                    nat sample_producer)
                 (mkLoader "/data/flag_data.pickle" false false "") sample_world
                 "stored" "stored");
      try reflexivity.
    discriminate.
  - apply (proj2 (proj2 (proj2
             (loader_loads_stored_result_and_produces_at_most_once
                string (fun d => d) (fun content => Some content)
                nat sample_producer)))).
    intros e. exists "produced", (S e). reflexivity.
Defined.

(** The witness of C8: the round trip through the empty sample
    directory. *)
Lemma cache_round_trip_witness :
  exists w1 later w2,
    scoped_use string (fun d => d) (fun content => Some content) nat
               sample_producer
               (mkLoader "/data/flag_data.pickle" false false "") fresh_world
    = (Ok "produced",
       set_loaded (mkLoader "/data/flag_data.pickle" false false "") "produced",
       w1)
    /\ files w1 !! "/data/flag_data.pickle" = Some "produced"
    /\ __init__ string "" nat "/data/flag_data.pickle" false w1 = (Ok later, w1)
    /\ __enter__ string (fun content => Some content) nat sample_producer later w1
       = (Ok "produced", set_loaded later "produced", w2)
    /\ produce_count w2 = produce_count w1.
Proof.
  apply (cache_round_trip string "" (fun d => d) (fun content => Some content)
                          nat sample_producer
                          "/data/flag_data.pickle" false fresh_world
                          (mkLoader "/data/flag_data.pickle" false false "")).
  - intros d. reflexivity.
  - vm_compute. reflexivity.
  - apply elem_of_singleton. reflexivity.
  - vm_compute. reflexivity.
  - reflexivity.
Defined.


(** A date cell without any digit is no parse failure: the cell is passed
    over, the nation stays without a date, and the pairs that remain are
    returned. *)
Example date_without_digit_is_passed_over :
  rows_loop sample_nations undated_rows [] [] = Ok (["France"; "Japan"], ["1958"])
  /\ founding_dates_of_rows sample_nations undated_rows = Ok [("France", "1958")].
Proof. split; vm_compute; reflexivity. Qed.


(** The witness of C9 on the sample nations. *)
Lemma scenario_rows_give_two_records_witness :
  founding_dates_of_rows sample_nations sample_rows
  = Ok [("France", "1958"); ("Japan", "1947")]
  /\ founding_dates_of_rows sample_nations
       [ ["France"; "1958"]; ["Japan"; "1947 (current constitution)"] ]
     = founding_dates_of_rows sample_nations sample_rows
  /\ (forall (sentinel : list string) (pre post : list (list string))
             (acc : list (string * (Z * Z))),
        Forall (fun c => PyStr.strip c = "Sources:") sentinel ->
        orders_rows Z py_int sample_truediv (pre ++ sentinel :: post) acc
        = orders_rows Z py_int sample_truediv (pre ++ post) acc).
Proof.
  apply (scenario_rows_give_two_records sample_nations Z py_int sample_truediv);
    reflexivity.
Defined.

(** ** The generated nation dictionary *)

Lemma lower_char_idempotent (c : ascii) :
  PyStr.lower_char (PyStr.lower_char c) = PyStr.lower_char c.
Proof. destruct c as [[] [] [] [] [] [] [] []]; reflexivity. Qed.

Lemma lower_idempotent (s : string) :
  PyStr.lower (PyStr.lower s) = PyStr.lower s.
Proof.
  induction s as [|c s IH]; [reflexivity|].
  cbn [PyStr.lower]. now rewrite lower_char_idempotent, IH.
Qed.

Lemma is_valid_country_alias (values : list (list string)) (term : string)
      (aliases : list string) :
  In aliases values -> In (PyStr.lower term) aliases ->
  is_valid_country values term = true.
Proof.
  intros Hv Ha. unfold is_valid_country. apply existsb_exists.
  exists aliases. split; [exact Hv | now apply str_mem_In].
Qed.

Lemma country_sublist_base (list_of_set : list string -> list string)
      (item : Country) (cn on x : string) :
  In x (map PyStr.lower (list_of_set [cn; on; alpha_2 item; alpha_3 item])) ->
  In x (country_sublist list_of_set item cn on).
Proof.
  intros H. unfold country_sublist. cbv zeta.
  repeat match goal with
         | |- context [if ?b then _ else _] => destruct b
         end;
    repeat (apply in_or_app; left); exact H.
Qed.

Lemma country_entries_hold (list_of_set : list string -> list string) :
  forall countries entries result,
    country_entries list_of_set countries entries = Some result ->
    (forall e, In e entries -> In e result)
    /\ (forall item, In item countries ->
          exists cn on,
            country_names item = Some (cn, on)
            /\ In (country_sublist list_of_set item cn on) result)
    /\ length result = length entries + length countries.
Proof.
  induction countries as [|item rest IH]; intros entries result.
  - cbn [country_entries]. intros H. inversion H; subst.
    split; [auto | split; [intros item [] | simpl; lia]].
  - cbn [country_entries].
    destruct (country_names item) as [[cn on]|] eqn:Hnames; [|discriminate].
    intros H. destruct (IH _ _ H) as [Hold [Hnew Hlen]].
    split; [|split].
    + intros e He. apply Hold. apply in_or_app. now left.
    + intros item' [Hi|Hi].
      * subst item'. exists cn, on. split; [exact Hnames|].
        apply Hold. apply in_or_app. right. now left.
      * now apply Hnew.
    + rewrite Hlen, length_app. simpl. lia.
Qed.

(** X24: in the generated dictionary every country is found under its two
    names and its two codes, whatever the case of the letters. *)
Theorem generated_dictionary_validates_names_and_codes
        (list_of_set : list string -> list string) (countries : list Country)
        (values : list (list string)) (item : Country) (cn on term : string) :
  (forall l x, In x l -> In x (list_of_set l)) ->
  _generate_nation_dict list_of_set countries = Generated values ->
  In item countries ->
  country_names item = Some (cn, on) ->
  In (PyStr.lower term)
     [PyStr.lower cn; PyStr.lower on;
      PyStr.lower (alpha_2 item); PyStr.lower (alpha_3 item)] ->
  is_valid_country values term = true.
Proof.
  intros Hset Hgen Hitem Hnames Hterm.
  unfold _generate_nation_dict in Hgen.
  destruct countries as [|c0 cs]; [discriminate|].
  destruct (country_entries list_of_set (c0 :: cs) []) as [entries|] eqn:He;
    [|discriminate].
  inversion Hgen; subst values. clear Hgen.
  destruct (country_entries_hold _ _ _ _ He) as [_ [Hnew _]].
  destruct (Hnew item Hitem) as [cn' [on' [Hnames' Hin]]].
  rewrite Hnames in Hnames'. inversion Hnames'; subst cn' on'.
  apply (is_valid_country_alias _ _ (country_sublist list_of_set item cn on)).
  - apply in_or_app. now left.
  - apply country_sublist_base.
    change [PyStr.lower cn; PyStr.lower on; PyStr.lower (alpha_2 item);
            PyStr.lower (alpha_3 item)]
      with (map PyStr.lower [cn; on; alpha_2 item; alpha_3 item]) in Hterm.
    apply in_map_iff in Hterm as [x [Hx Hin']].
    apply in_map_iff. exists x. split; [exact Hx | now apply Hset].
Qed.

Lemma lower_is_not_capitalised (term capitalised : string) :
  PyStr.lower capitalised <> capitalised ->
  str_mem (PyStr.lower term) [capitalised] = false.
Proof.
  intros Hcap. unfold str_mem. simpl. rewrite orb_false_r.
  apply String.eqb_neq. intros Heq. apply Hcap.
  rewrite <- Heq. apply lower_idempotent.
Qed.

(** X25: the generated dictionary holds one alias list per country, in order,
    and then the two manual items; [is_valid_country] never accepts a term
    on account of those two, whose letters are not all lower case. *)
Theorem manual_entries_never_validate
        (list_of_set : list string -> list string) (countries : list Country)
        (values : list (list string)) :
  _generate_nation_dict list_of_set countries = Generated values ->
  exists entries,
    values = entries ++ [["East Timor"]; ["Timor-Leste"]]
    /\ length entries = length countries
    /\ forall term, is_valid_country values term = is_valid_country entries term.
Proof.
  intros Hgen. unfold _generate_nation_dict in Hgen.
  destruct countries as [|c0 cs]; [discriminate|].
  destruct (country_entries list_of_set (c0 :: cs) []) as [entries|] eqn:He;
    [|discriminate].
  inversion Hgen; subst values. clear Hgen.
  exists entries. split; [reflexivity | split].
  - now destruct (country_entries_hold _ _ _ _ He) as [_ [_ Hlen]].
  - intros term. unfold is_valid_country. rewrite existsb_app.
    cbn [existsb].
    rewrite (lower_is_not_capitalised term "East Timor") by discriminate.
    rewrite (lower_is_not_capitalised term "Timor-Leste") by discriminate.
    now rewrite !orb_false_r.
Qed.

Lemma country_entries_fail (list_of_set : list string -> list string) :
  forall countries entries,
    country_entries list_of_set countries entries = None
    <-> exists item, In item countries /\ country_names item = None.
Proof.
  induction countries as [|item rest IH]; intros entries; cbn [country_entries].
  - split; [discriminate | intros [item [[] _]]].
  - destruct (country_names item) as [[cn on]|] eqn:Hnames.
    + rewrite IH. split.
      * intros [i [Hi Hn]]. exists i. split; [now right | exact Hn].
      * intros [i [[Hi|Hi] Hn]]; [subst; congruence | exists i; auto].
    + split; [|reflexivity]. intros _. exists item. split; [now left | exact Hnames].
Qed.

(** X26: the two ways the generation fails: an empty country list leaves the
    loop index unbound, and a name of the comma shape that does not split
    into exactly two parts cannot be unpacked. *)
Theorem generate_nation_dict_failures
        (list_of_set : list string -> list string) (countries : list Country) :
  (_generate_nation_dict list_of_set countries = UnboundIndex
   <-> countries = [])
  /\ (_generate_nation_dict list_of_set countries = UnpackError
      <-> exists item, In item countries /\ country_names item = None).
Proof.
  unfold _generate_nation_dict. split.
  - destruct countries as [|c0 cs]; [split; reflexivity|].
    destruct (country_entries list_of_set (c0 :: cs) []); split; discriminate.
  - destruct countries as [|c0 cs].
    + split; [discriminate | intros [item [[] _]]].
    + rewrite <- (country_entries_fail list_of_set (c0 :: cs) []).
      destruct (country_entries list_of_set (c0 :: cs) []);
        split; try discriminate; reflexivity.
Qed.

(** ** Worked examples for the further properties *)

Example country_names_of_korea :
  country_names (mkCountry "Korea, Republic of" "KR" "KOR")
  = Some ("Korea", "Republic of Korea").
Proof. reflexivity. Qed.

Example generated_sample_dictionary :
  _generate_nation_dict first_occurrences sample_countries
  = Generated [ ["france"; "fr"; "fra"];
                ["korea"; "republic of korea"; "kr"; "kor"; "south korea"];
                ["East Timor"]; ["Timor-Leste"] ].
Proof. reflexivity. Qed.

Example splitext_cases :
  splitext "a/b.tar.gz" = ("a/b.tar", ".gz")
  /\ splitext ".bashrc" = (".bashrc", "")
  /\ splitext "a.b/c" = ("a.b/c", "")
  /\ splitext "dir/..x" = ("dir/..x", "")
  /\ get_base_path_name "/flags/Flag_of_France.svg" = "Flag_of_France"
  /\ convert_path_extension "flags/France.svg" ".png" = "flags/France.png".
Proof. repeat split; reflexivity. Qed.

Lemma first_occurrences_keeps (l : list string) (x : string) :
  In x l -> In x (first_occurrences l).
Proof.
  induction l as [|y l IH]; [intros []|].
  intros Hin. cbn [first_occurrences].
  destruct (String.eqb x y) eqn:Hxy.
  - apply String.eqb_eq in Hxy. subst. now left.
  - right. apply filter_In. split.
    + destruct Hin as [H|H]; [subst; now rewrite String.eqb_refl in Hxy | auto].
    + now rewrite Hxy.
Qed.

Lemma first_occurrences_sound (l : list string) (x : string) :
  In x (first_occurrences l) -> In x l.
Proof.
  induction l as [|y l IH]; [intros []|].
  cbn [first_occurrences]. intros [H|H]; [now left|].
  apply filter_In in H as [H _]. right. auto.
Qed.

Lemma search_multiple_words_membership_witness :
  2 <= length ["president"; "list"]
  /\ (In "List of presidents of France"
         (search_multiple_words sample_search ["president"; "list"] 20)
      <-> (exists word, In word ["president"; "list"]
                        /\ In "List of presidents of France"
                              (sample_search word 20))
          /\ (forall word, In word ["president"; "list"] ->
                PyStr.str_in (PyStr.lower word)
                             (PyStr.lower "List of presidents of France") = true)).
Proof.
  assert (Hlen : 2 <= length ["president"; "list"]) by (simpl; lia).
  split; [exact Hlen|].
  apply (search_multiple_words_membership
           sample_search ["president"; "list"] 20
           "List of presidents of France" Hlen).
Defined.

Lemma nation_fan_out_covers_aliases_witness :
  In ["france"; "fr"; "fra"] sample_nations
  /\ In "france" ["france"; "fr"; "fra"]
  /\ exists queries,
      Forall2 (fun q alias =>
                 Permutation q (list_remove "france"
                                  (split_terms ["france"; "president"])
                                  ++ [alias]))
              queries ["france"; "fr"; "fra"]
      /\ list_of_search_results sample_search sample_nations first_occurrences
                                (3 + 0) External ["france"; "president"] true []
         = Some (Ok (concat (map (plain_search sample_search first_occurrences)
                                 queries))).
Proof.
  apply (nation_fan_out_covers_aliases
           sample_search sample_nations first_occurrences 0 External
           ["france"; "president"] [] "france" ["france"; "fr"; "fra"]).
  reflexivity.
Defined.

Lemma resolution_without_fan_out_witness :
  list_of_search_results sample_search sample_nations first_occurrences
                         (3 + 0) External ["president"] true
                         ["skip_replacement_queries"]
  = Some (Ok (search_with_list sample_search first_occurrences
                               (split_terms ["president"]))).
Proof.
  apply (resolution_without_fan_out
           sample_search sample_nations first_occurrences 0 External
           ["president"] ["skip_replacement_queries"]).
  - reflexivity.
  - left. reflexivity.
Defined.

Lemma list_of_search_results_titles_hold_list_witness :
  PyStr.str_in "list" (PyStr.lower "List of Foo bar") = true.
Proof.
  apply (list_of_search_results_titles_hold_list
           sample_search sample_nations first_occurrences 0 External
           ["foo"] true ["skip_replacement_queries"]
           ["list of foo"; "List of Foo bar"]).
  - exact first_occurrences_sound.
  - discriminate.
  - vm_compute. reflexivity.
  - right. left. reflexivity.
Defined.

Lemma process_page_special_cases_witness :
  process_page sample_search sample_nations first_occurrences 0
               (["history"] ++ "us presidents" :: ["timeline"])
               (Some "anything") (Some (fun a : page_arg => Ok a))
  = Some (Ok (OneTitle "List of presidents of the United States"))
  /\ process_page sample_search sample_nations first_occurrences 0
                  (["history"] ++ "sovereign states formation" :: ["timeline"])
                  (Some "anything") (Some (fun a : page_arg => Ok a))
     = Some (Ok (OneTitle "List of sovereign states by dates of formation")).
Proof.
  apply (process_page_special_cases
           sample_search sample_nations first_occurrences 0
           ["history"] ["timeline"] (Some "anything") (fun a => Ok a)).
  intros x [Hx|[]]. subst x. split; discriminate.
Defined.

Lemma process_page_without_hint_witness :
  exists candidates,
    list_of_search_results sample_search sample_nations first_occurrences
                           (3 + 0) External ["foo"] true
                           ["skip_replacement_queries"] = Some (Ok candidates)
    /\ process_page sample_search sample_nations first_occurrences
                    (3 + 0) ["foo"] None (@None (page_arg -> res page_arg))
       = Some (match candidates with
               | [] => Raise IndexError
               | first :: _ =>
                   match @None (page_arg -> res page_arg) with
                   | Some f => f (OneTitle first)
                   | None => Raise ValueError
                   end
               end).
Proof.
  apply (process_page_without_hint
           sample_search sample_nations first_occurrences 0 ["foo"] None None).
  - reflexivity.
  - left. reflexivity.
Defined.

Lemma non_overwriting_loader_keeps_existing_file_witness :
  files (snd (scoped_uses string (fun d => d) (fun content => Some content)
                          nat sample_producer 2
                          (mkLoader "/data/flag_data.pickle" false false "")
                          sample_world))
  = files sample_world
  /\ dirs (snd (scoped_uses string (fun d => d) (fun content => Some content)
                            nat sample_producer 2
                            (mkLoader "/data/flag_data.pickle" false false "")
                            sample_world))
     = dirs sample_world.
Proof.
  apply (non_overwriting_loader_keeps_existing_file
           string (fun d => d) (fun content => Some content) nat sample_producer
           2 (mkLoader "/data/flag_data.pickle" false false "") sample_world).
  - reflexivity.
  - vm_compute. reflexivity.
Defined.

Lemma scoped_use_persists_witness :
  exists (self' : Loader string) (w' : World nat),
    _is_loaded self' = true /\ data self' = "produced"
    /\ save_location self' = "/data/flag_data.pickle"
    /\ path_exists w' "/data/flag_data.pickle" = true.
Proof.
  pose (r := scoped_use string (fun d => d) (fun content => Some content)
                        nat sample_producer
                        (mkLoader "/data/flag_data.pickle" false false "")
                        fresh_world).
  assert (Hr : r = (Ok "produced", snd (fst r), snd r))
    by (vm_compute; reflexivity).
  exists (snd (fst r)), (snd r).
  apply (scoped_use_persists
           string (fun d => d) (fun content => Some content) nat sample_producer
           (mkLoader "/data/flag_data.pickle" false false "") (snd (fst r))
           fresh_world (snd r) "produced" Hr).
Defined.

Lemma overwriting_loader_replaces_entry_witness :
  exists w1,
    scoped_use string (fun d => d) (fun content => Some content) nat
               sample_producer
               (mkLoader "/data/flag_data.pickle" true false "") sample_world
    = (Ok "produced",
       set_loaded (mkLoader "/data/flag_data.pickle" true false "") "produced",
       w1)
    /\ files w1 !! "/data/flag_data.pickle" = Some "produced"
    /\ produce_count w1 = S (produce_count sample_world).
Proof.
  apply (overwriting_loader_replaces_entry
           string "" (fun d => d) (fun content => Some content) nat
           sample_producer "/data/flag_data.pickle" sample_world
           (mkLoader "/data/flag_data.pickle" true false "")).
  - vm_compute. reflexivity.
  - apply elem_of_singleton. reflexivity.
  - intros H. cbn [dirs sample_world] in H.
    apply elem_of_singleton in H. discriminate H.
  - reflexivity.
Defined.

Lemma founding_dates_are_well_formed_witness :
  NoDup (map fst [("France", "1958"); ("Japan", "1947")])
  /\ forall nation year,
       In (nation, year) [("France", "1958"); ("Japan", "1947")] ->
       four_digits year = true /\ nation <> "Czechia" /\ nation <> "Palestine".
Proof.
  apply (founding_dates_are_well_formed sample_nations sample_rows).
  vm_compute. reflexivity.
Defined.

Lemma founding_dates_hold_valid_countries_witness :
  is_valid_country sample_nations (PyStr.strip "Japan") = true
  \/ "Japan" = "Cape Verde".
Proof.
  apply (founding_dates_hold_valid_countries
           sample_nations sample_rows
           [("France", "1958"); ("Japan", "1947")]) with (year := "1947").
  - vm_compute. reflexivity.
  - right. left. reflexivity.
Defined.



Lemma generated_dictionary_validates_names_and_codes_witness :
  is_valid_country
    [ ["france"; "fr"; "fra"];
      ["korea"; "republic of korea"; "kr"; "kor"; "south korea"];
      ["East Timor"]; ["Timor-Leste"] ]
    "Republic of KOREA" = true.
Proof.
  apply (generated_dictionary_validates_names_and_codes
           first_occurrences sample_countries _
           (mkCountry "Korea, Republic of" "KR" "KOR")
           "Korea" "Republic of Korea" "Republic of KOREA").
  - exact first_occurrences_keeps.
  - reflexivity.
  - right. left. reflexivity.
  - reflexivity.
  - right. left. reflexivity.
Defined.

Lemma manual_entries_never_validate_witness :
  exists entries,
    [ ["france"; "fr"; "fra"];
      ["korea"; "republic of korea"; "kr"; "kor"; "south korea"];
      ["East Timor"]; ["Timor-Leste"] ]
    = entries ++ [["East Timor"]; ["Timor-Leste"]]
    /\ length entries = length sample_countries
    /\ forall term,
         is_valid_country
           [ ["france"; "fr"; "fra"];
             ["korea"; "republic of korea"; "kr"; "kor"; "south korea"];
             ["East Timor"]; ["Timor-Leste"] ] term
         = is_valid_country entries term.
Proof.
  apply (manual_entries_never_validate first_occurrences sample_countries).
  reflexivity.
Defined.
